(** * octodns-bunny: the Bunny DNS API client

    A shallow embedding of [BunnyClient] (src/octodns_bunny/__init__.py):
    the zone cache, the request layer with its status-code mapping, the
    paginated cache load, the record payload check, and the six public
    operations.  The client is stateful and talks to a remote provider, so
    every method is a function on an explicit state that holds the cache,
    the caller's payload objects, the provider and the exchanges sent so
    far; an exception is an outcome, and it keeps the mutations made before
    it was raised, as in Python. *)

From Stdlib Require Import ZArith List String Bool Lia.
Import ListNotations.
Set Warnings "-register-all".
Local Open Scope string_scope.
Local Open Scope Z_scope.
Local Open Scope list_scope.

(** ** Python values

    The values that reach the client are JSON documents decoded by
    [Response.json()] and the caller's payload dictionaries: [None],
    booleans, integers of any size, strings, lists, and dictionaries with
    string keys.  (JSON numbers with a fraction are left out: no branch of
    the client inspects one.) *)

Inductive pyval : Type :=
| PNone
| PBool (b : bool)
| PInt (n : Z)
| PStr (s : string)
| PList (l : list pyval)
| PDict (d : list (string * pyval)).

(** A dictionary with string keys, in insertion order. *)
Definition jobj : Type := list (string * pyval).

(** [bool(v)]: the truth value Python's [not v] and [if v] test. *)
Definition py_truthy (v : pyval) : bool :=
  match v with
  | PNone => false
  | PBool b => b
  | PInt n => negb (n =? 0)
  | PStr s => negb (String.eqb s "")
  | PList l => match l with [] => false | _ :: _ => true end
  | PDict d => match d with [] => false | _ :: _ => true end
  end.

(** [v is None]. *)
Definition is_None (v : pyval) : bool :=
  match v with PNone => true | _ => false end.

(** Lists and dictionaries cannot be dictionary keys. *)
Definition hashable (v : pyval) : bool :=
  match v with PList _ | PDict _ => false | _ => true end.

(** Booleans are integers in Python: [True == 1] and [False == 0]. *)
Definition as_int (v : pyval) : option Z :=
  match v with
  | PBool b => Some (if b then 1 else 0)
  | PInt n => Some n
  | _ => None
  end.

(** Equality of two hashable values, as a dictionary compares its keys. *)
Definition key_eqb (a b : pyval) : bool :=
  match a, b with
  | PNone, PNone => true
  | PStr x, PStr y => String.eqb x y
  | _, _ =>
      match as_int a, as_int b with
      | Some x, Some y => x =? y
      | _, _ => false
      end
  end.

(** [v == True]. *)
Definition eq_True (v : pyval) : bool :=
  match as_int v with
  | Some n => n =? 1
  | None => false
  end.

(** ** Dictionaries

    A Python dictionary keeps its keys unique and in insertion order;
    [list(d)] is that order.  Assigning to a key that is present keeps the
    key's place (and the key object) and replaces the value. *)

Section Dict.
Context {K V : Type} (eqb : K -> K -> bool).

Fixpoint dict_get (d : list (K * V)) (k : K) : option V :=
  match d with
  | [] => None
  | (k', v) :: d' => if eqb k' k then Some v else dict_get d' k
  end.

Fixpoint dict_set (d : list (K * V)) (k : K) (v : V) : list (K * V) :=
  match d with
  | [] => [(k, v)]
  | (k', v') :: d' =>
      if eqb k' k then (k', v) :: d' else (k', v') :: dict_set d' k v
  end.

(** [d.pop(k, None)] with the result dropped. *)
Fixpoint dict_pop (d : list (K * V)) (k : K) : list (K * V) :=
  match d with
  | [] => []
  | (k', v') :: d' =>
      if eqb k' k then d' else (k', v') :: dict_pop d' k
  end.

(** [d.update(l)]: the pairs of [l] assigned in order. *)
Definition dict_update (d l : list (K * V)) : list (K * V) :=
  fold_left (fun acc p => dict_set acc (fst p) (snd p)) l d.
End Dict.

Definition jget : jobj -> string -> option pyval := dict_get String.eqb.
Definition jset : jobj -> string -> pyval -> jobj := dict_set String.eqb.
Definition jpop : jobj -> string -> jobj := dict_pop String.eqb.

(** The zone cache [self._zones]: any hashable value can be a key. *)
Definition zdict : Type := list (pyval * pyval).
Definition zget : zdict -> pyval -> option pyval := dict_get key_eqb.
Definition zset : zdict -> pyval -> pyval -> zdict := dict_set key_eqb.

(** ** Formatted strings

    An f-string is kept as its pieces: literal text and formatted values. *)

Inductive piece : Type :=
| Lit (s : string)
| Fmt (v : pyval).

Definition fstring : Type := list piece.

(** ** Exceptions

    [BunnyClientNotFound] and [BunnyClientUnauthorized] subclass
    [BunnyClientException].  [HTTPError] is the exception of the HTTP
    library's [raise_for_status]; the last three are Python's own. *)

Inductive exn : Type :=
| BunnyClientException (msg : fstring)
| BunnyClientNotFound
| BunnyClientUnauthorized
| HTTPError (status : Z)
| JSONDecodeError
| KeyError (key : string)
| TypeError.

(** [isinstance(e, BunnyClientException)]. *)
Definition is_BunnyClientException (e : exn) : bool :=
  match e with
  | BunnyClientException _ | BunnyClientNotFound | BunnyClientUnauthorized => true
  | _ => false
  end.

(** ** Requests and responses *)

Inductive verb : Type := GET | POST | PUT | DELETE.

Record request : Type := mkRequest {
  method : verb;
  url : fstring;
  params : option jobj;
  json_body : option jobj
}.

(** A response: its status code and its body decoded as JSON ([None] when
    the body is not a JSON document, where [.json()] raises). *)
Record response : Type := mkResponse {
  status_code : Z;
  decoded : option pyval
}.

Definition exchange : Type := (request * response)%type.

(** The provider behind the session: it answers one request at a time and
    may change its own state.  Every request gets a response: a connection
    that fails is outside the model. *)
Class Provider (W : Type) : Type :=
  respond : W -> request -> response * W.

(** ** State *)

(** A reference to a dictionary object owned by the caller. *)
Definition ref : Type := nat.

Record state (W : Type) : Type := mkState {
  _zones : zdict;
  heap : ref -> jobj;
  remote : W;
  sent : list exchange
}.
Arguments mkState {W}.
Arguments _zones {W}.
Arguments heap {W}.
Arguments remote {W}.
Arguments sent {W}.

Inductive outcome (A : Type) : Type :=
| Ret (a : A)
| Raise (e : exn)
| OutOfFuel.
Arguments Ret {A}.
Arguments Raise {A}.
Arguments OutOfFuel {A}.

Definition M (W A : Type) : Type := state W -> outcome A * state W.

Definition ret {W A} (a : A) : M W A := fun s => (Ret a, s).
Definition raise {W A} (e : exn) : M W A := fun s => (Raise e, s).
Definition out_of_fuel {W A} : M W A := fun s => (OutOfFuel, s).

Definition bind {W A B} (m : M W A) (f : A -> M W B) : M W B :=
  fun s =>
    match m s with
    | (Ret a, s') => f a s'
    | (Raise e, s') => (Raise e, s')
    | (OutOfFuel, s') => (OutOfFuel, s')
    end.

Notation "x <- m ;; k" := (bind m (fun x => k))
  (at level 61, m at next level, right associativity).
Notation "m ;;; k" := (bind m (fun _ => k))
  (at level 61, right associativity).

(** A step that only reads the state. *)
Definition gets {W A} (f : state W -> A) : M W A := fun s => (Ret (f s), s).

(** A value or an exception, lifted to a step. *)
Definition lift {W A} (r : exn + A) : M W A :=
  match r with
  | inr a => ret a
  | inl e => raise e
  end.

Fixpoint for_each {W A} (body : A -> M W unit) (l : list A) : M W unit :=
  match l with
  | [] => ret tt
  | x :: l' => body x ;;; for_each body l'
  end.

(** ** Python operations on decoded values *)

(** [v[key]] for a string key. *)
Definition getitem (v : pyval) (key : string) : exn + pyval :=
  match v with
  | PDict d =>
      match jget d key with
      | Some x => inr x
      | None => inl (KeyError key)
      end
  | _ => inl TypeError
  end.

(** The characters of a string, each a string of length one. *)
Fixpoint chars (s : string) : list pyval :=
  match s with
  | EmptyString => []
  | String c s' => PStr (String c EmptyString) :: chars s'
  end.

(** [iter(v)]: what a [for] loop walks over. *)
Definition iterate (v : pyval) : exn + list pyval :=
  match v with
  | PList l => inr l
  | PDict d => inr (map (fun p => PStr (fst p)) d)
  | PStr s => inr (chars s)
  | _ => inl TypeError
  end.

(** [r.json()]. *)
Definition json (r : response) : exn + pyval :=
  match decoded r with
  | Some v => inr v
  | None => inl JSONDecodeError
  end.

(** ** The client *)

Definition API_ROOT : string := "https://api.bunny.net".

Definition RECORD_TYPES : list (string * Z) :=
  [ ("A", 0); ("AAAA", 1); ("CNAME", 2); ("TXT", 3); ("MX", 4);
    ("SRV", 8); ("CAA", 9); ("PTR", 10); ("NS", 12) ].

(** [self.RECORD_TYPES.get(raw_type)]: hashing an unhashable key raises;
    no key of the table equals a value that is not a string. *)
Definition RECORD_TYPES_get (raw_type : pyval) : exn + option Z :=
  match raw_type with
  | PStr s => inr (dict_get String.eqb RECORD_TYPES s)
  | PList _ | PDict _ => inl TypeError
  | _ => inr None
  end.

Section Client.
Context {W : Type} `{Provider W}.

(** [self._sess.request(method, url, params=params, json=data)]: the
    provider answers, and the exchange is on the wire. *)
Definition session_request (rq : request) : M W response :=
  fun s =>
    let (r, w) := respond (remote s) rq in
    (Ret r, mkState (_zones s) (heap s) w (sent s ++ [(rq, r)])).

(** [r.raise_for_status()] of the HTTP library: an [HTTPError] for a
    status from 400 to 599, nothing otherwise. *)
Definition raise_for_status (r : response) : M W unit :=
  if (400 <=? status_code r) && (status_code r <? 600)
  then raise (HTTPError (status_code r))
  else ret tt.

Definition _request (meth : verb) (path : fstring)
    (params : option jobj) (data : option jobj) : M W response :=
  let url := Lit API_ROOT :: path in
  r <- session_request (mkRequest meth url params data) ;;
  if status_code r =? 401 then raise BunnyClientUnauthorized
  else if status_code r =? 404 then raise BunnyClientNotFound
  else
    raise_for_status r ;;;
    ret r.

(** [self._zones[k] = v]. *)
Definition zones_setitem (k v : pyval) : M W unit :=
  fun s =>
    if hashable k
    then (Ret tt, mkState (zset (_zones s) k v) (heap s) (remote s) (sent s))
    else (Raise TypeError, s).

(** The body of the loop over a page's items.  Python evaluates the
    right-hand side [z['Id']] before the subscript [z['Domain']]. *)
Definition cache_item (z : pyval) : M W unit :=
  id <- lift (getitem z "Id") ;;
  domain <- lift (getitem z "Domain") ;;
  zones_setitem domain id.

(** The [while True] loop of [_cache_zones], one page per unit of fuel: the
    loop runs for as long as the provider announces more pages, so the
    model stops with [OutOfFuel] when the fuel is spent first. *)
Fixpoint _cache_zones_from (fuel : nat) (page : Z) : M W unit :=
  match fuel with
  | O => out_of_fuel
  | S fuel' =>
      resp <- _request GET [Lit "/dnszone"] (Some [("page", PInt page)]) None ;;
      r <- lift (json resp) ;;
      items <- lift (getitem r "Items") ;;
      zs <- lift (iterate items) ;;
      for_each cache_item zs ;;;
      more <- lift (getitem r "HasMoreItems") ;;
      if negb (eq_True more) then ret tt
      else _cache_zones_from fuel' (page + 1)
  end.

Definition _cache_zones (fuel : nat) : M W unit :=
  _cache_zones_from fuel 1.

(** [not self._zones]. *)
Definition zones_empty (s : state W) : bool :=
  match _zones s with [] => true | _ :: _ => false end.

Definition _get_zone_id (fuel : nat) (zone_name : string) : M W pyval :=
  empty <- gets zones_empty ;;
  (if empty then _cache_zones fuel else ret tt) ;;;
  found <- gets (fun s => zget (_zones s) (PStr zone_name)) ;;
  let zone_id := match found with Some v => v | None => PNone end in
  if negb (py_truthy zone_id) then raise BunnyClientNotFound
  else ret zone_id.

Definition _update_zones_cache (zone_name : string) (zone_id : pyval)
    : M W bool :=
  zones_setitem (PStr zone_name) zone_id ;;;
  ret true.

(** [record_data.get(key)] on the caller's dictionary. *)
Definition payload_get (record_data : ref) (key : string) : M W pyval :=
  gets (fun s =>
    match jget (heap s record_data) key with
    | Some v => v
    | None => PNone
    end).

(** A mutation of the caller's dictionary, in place. *)
Definition payload_modify (record_data : ref) (f : jobj -> jobj) : M W unit :=
  fun s =>
    let h := fun r => if Nat.eqb r record_data
                      then f (heap s record_data) else heap s r in
    (Ret tt, mkState (_zones s) h (remote s) (sent s)).

Definition _handle_record_data (record_data : ref) (update : bool)
    : M W ref :=
  raw_type <- payload_get record_data "Type" ;;
  if update then
    name <- payload_get record_data "Name" ;;
    if negb (is_None name) then
      raise (BunnyClientException [Lit "Existing record name can'be updated."])
    else if negb (is_None raw_type) then
      raise (BunnyClientException [Lit "Existing record type can'be updated."])
    else
      payload_modify record_data (fun d => jpop d "Name") ;;;
      payload_modify record_data (fun d => jpop d "Type") ;;;
      ret record_data
  else
    if negb (py_truthy raw_type) then
      raise (BunnyClientException [Lit "No resource record type specified."])
    else
      type <- lift (RECORD_TYPES_get raw_type) ;;
      match type with
      | None =>
          raise (BunnyClientException
                   [Lit "Unsupported resource record type: "; Fmt raw_type])
      | Some code =>
          payload_modify record_data (fun d => jset d "Type" (PInt code)) ;;;
          ret record_data
      end.

Definition clear_zones_cache : M W bool :=
  fun s => (Ret true, mkState [] (heap s) (remote s) (sent s)).

Definition zones (fuel : nat) : M W (list pyval) :=
  empty <- gets zones_empty ;;
  (if empty then _cache_zones fuel else ret tt) ;;;
  gets (fun s => map fst (_zones s)).

Definition zone (fuel : nat) (zone_name : string) : M W pyval :=
  zone_id <- _get_zone_id fuel zone_name ;;
  resp <- _request GET [Lit "/dnszone/"; Fmt zone_id] None None ;;
  lift (json resp).

Definition zone_create (zone_name : string) : M W pyval :=
  resp <- _request POST [Lit "/dnszone"] None
            (Some [("Domain", PStr zone_name)]) ;;
  r <- lift (json resp) ;;
  id <- lift (getitem r "Id") ;;
  _update_zones_cache zone_name id ;;;
  ret r.

Definition record_create (fuel : nat) (zone_name : string)
    (record_data : ref) : M W pyval :=
  zone_id <- _get_zone_id fuel zone_name ;;
  let path := [Lit "/dnszone/"; Fmt zone_id; Lit "/records"] in
  record_data <- _handle_record_data record_data false ;;
  data <- gets (fun s => heap s record_data) ;;
  resp <- _request PUT path None (Some data) ;;
  lift (json resp).

Definition record_update (fuel : nat) (zone_name : string)
    (record_id : pyval) (record_data : ref) : M W response :=
  zone_id <- _get_zone_id fuel zone_name ;;
  let path := [Lit "/dnszone/"; Fmt zone_id; Lit "/records/"; Fmt record_id] in
  record_data <- _handle_record_data record_data true ;;
  data <- gets (fun s => heap s record_data) ;;
  _request POST path None (Some data).

Definition record_delete (fuel : nat) (zone_name : string)
    (record_id : pyval) : M W response :=
  zone_id <- _get_zone_id fuel zone_name ;;
  let path := [Lit "/dnszone/"; Fmt zone_id; Lit "/records/"; Fmt record_id] in
  _request DELETE path None None.
End Client.

(** ** Providers used in the examples *)

(** [BunnyClient(api_key)]: an empty cache and nothing sent; [objects] are
    the dictionaries the caller holds. *)
Definition new_client {W : Type} (objects : ref -> jobj) (w : W) : state W :=
  mkState [] objects w [].

(** A provider that plays back a fixed list of responses, whatever the
    request, and answers 500 once the list is used up. *)
Definition script : Type := list response.

#[export] Instance scripted : Provider script :=
  fun w _ =>
    match w with
    | [] => (mkResponse 500 None, [])
    | r :: w' => (r, w')
    end.

(** A provider that hosts zones: it lists them on one page, creates a zone
    under the next free ID, and serves the detail of a zone it hosts. *)
Record account : Type := mkAccount { hosted : list (string * Z) }.

Definition zone_json (z : string * Z) : pyval :=
  PDict [("Id", PInt (snd z)); ("Domain", PStr (fst z))].

Definition next_id (zs : list (string * Z)) : Z :=
  1 + fold_right Z.max 0 (map snd zs).

Definition is_lit (p : piece) (s : string) : bool :=
  match p with
  | Lit s' => String.eqb s' s
  | Fmt _ => false
  end.

Definition account_respond (a : account) (rq : request) : response * account :=
  match method rq, url rq with
  | GET, [_; p] =>
      if is_lit p "/dnszone" then
        (mkResponse 200
           (Some (PDict [("Items", PList (map zone_json (hosted a)));
                         ("HasMoreItems", PBool false)])), a)
      else (mkResponse 404 None, a)
  | POST, [_; p] =>
      match json_body rq with
      | Some [(_, PStr name)] =>
          if is_lit p "/dnszone" then
            let z := (name, next_id (hosted a)) in
            (mkResponse 201 (Some (zone_json z)), mkAccount (hosted a ++ [z]))
          else (mkResponse 404 None, a)
      | _ => (mkResponse 400 None, a)
      end
  | GET, [_; p; Fmt (PInt id)] =>
      match find (fun z => snd z =? id) (hosted a) with
      | Some z =>
          if is_lit p "/dnszone/" then (mkResponse 200 (Some (zone_json z)), a)
          else (mkResponse 404 None, a)
      | None => (mkResponse 404 None, a)
      end
  | _, _ => (mkResponse 404 None, a)
  end.

#[export] Instance in_memory : Provider account := account_respond.

(** The request of one page of the zone listing. *)
Definition listing_request (page : Z) : request :=
  mkRequest GET [Lit API_ROOT; Lit "/dnszone"] (Some [("page", PInt page)]) None.

Definition is_listing (x : exchange) : Prop :=
  exists page, fst x = listing_request page.

(** The request of a zone's detail. *)
Definition detail_request (zone_id : pyval) : request :=
  mkRequest GET [Lit API_ROOT; Lit "/dnszone/"; Fmt zone_id] None None.

(** ** Vocabulary of the properties *)

(** The exception [_request] raises for a status code, if any. *)
Definition status_exn (code : Z) : option exn :=
  if code =? 401 then Some BunnyClientUnauthorized
  else if code =? 404 then Some BunnyClientNotFound
  else if (400 <=? code) && (code <? 600) then Some (HTTPError code)
  else None.

(** Exchanges whose status raises nothing in [_request]. *)
Definition quiet (d : list exchange) : Prop :=
  Forall (fun x => status_exn (status_code (snd x)) = None) d.

(** How the outcome of a run relates to the exchanges of the run: every
    response was let through, or the last one raised its exception and the
    run ended there. *)
Inductive verdict {A : Type} : outcome A -> list exchange -> Prop :=
| verdict_quiet (r : outcome A) (d : list exchange) :
    quiet d -> verdict r d
| verdict_raised (d : list exchange) (x : exchange) (e : exn) :
    quiet d -> status_exn (status_code (snd x)) = Some e ->
    verdict (Raise e) (d ++ [x]).

(** [body] is a page of the zone listing: its items carry the pairs
    [(Domain, Id)] of [pairs], in order, and [more] is its [HasMoreItems]. *)
Definition page_of (body : pyval) (pairs : zdict) (more : bool) : Prop :=
  exists items,
    getitem body "Items" = inr (PList items) /\
    Forall2 (fun z p => getitem z "Id" = inr (snd p) /\
                        getitem z "Domain" = inr (fst p) /\
                        hashable (fst p) = true) items pairs /\
    getitem body "HasMoreItems" = inr (PBool more).

(** The state with the caller's dictionary at [r] replaced by [d]. *)
Definition with_payload {W : Type} (s : state W) (r : ref) (d : jobj) : state W :=
  mkState (_zones s)
    (fun r' => if Nat.eqb r' r then d else heap s r') (remote s) (sent s).

(** The request [record_create] sends. *)
Definition create_request (zone_id : pyval) (body : jobj) : request :=
  mkRequest PUT [Lit API_ROOT; Lit "/dnszone/"; Fmt zone_id; Lit "/records"]
    None (Some body).

(** The request [record_update] sends. *)
Definition update_request (zone_id record_id : pyval) (body : jobj) : request :=
  mkRequest POST
    [Lit API_ROOT; Lit "/dnszone/"; Fmt zone_id; Lit "/records/"; Fmt record_id]
    None (Some body).

(** [v] is missing from a dictionary or bound to [None]. *)
Definition none_or_absent (v : option pyval) : Prop :=
  v = None \/ v = Some PNone.

Section Vocabulary.
Context {W : Type} `{Provider W}.

(** A step relates the state before it to the state after it by [R]. *)
Definition steps {A} (R : state W -> state W -> Prop) (m : M W A) : Prop :=
  forall s, R s (snd (m s)).

(** The state after differs from the state before by the cache, the
    provider, and listing exchanges only. *)
Definition only_lists (s s' : state W) : Prop :=
  heap s' = heap s /\
  exists pages, sent s' = sent s ++ pages /\ Forall is_listing pages.

(** The two lines [zones] and [_get_zone_id] start with: load the cache when
    it is empty. *)
Definition ensure_cached (fuel : nat) : M W unit :=
  empty <- gets zones_empty ;;
  if empty then _cache_zones fuel else ret tt.

(** The exchanges of a run and its outcome agree on the statuses. *)
Definition tracked {A : Type} (m : M W A) : Prop :=
  forall s, exists d, sent (snd (m s)) = sent s ++ d /\ verdict (fst (m s)) d.

(** What a run does with the statuses it receives: a 401 raises
    [BunnyClientUnauthorized], a 404 raises [BunnyClientNotFound], any other
    status from 400 to 599 raises the HTTP library's [HTTPError]. *)
Definition maps_status {A : Type} (m : M W A) : Prop :=
  forall s, exists d,
    sent (snd (m s)) = sent s ++ d /\
    forall rq rs, In (rq, rs) d ->
      (status_code rs = 401 -> fst (m s) = Raise BunnyClientUnauthorized) /\
      (status_code rs = 404 -> fst (m s) = Raise BunnyClientNotFound) /\
      (400 <= status_code rs < 600 ->
       status_code rs <> 401 -> status_code rs <> 404 ->
       fst (m s) = Raise (HTTPError (status_code rs))).
End Vocabulary.

(** ** Clients and payloads of the examples *)

(** A client that has [example.com] (zone 42) in its cache and holds one
    payload dictionary, at reference 0, in front of a scripted provider. *)
Definition cached_client (payload : jobj) (answers : script) : state script :=
  mkState [(PStr "example.com", PInt 42)]
    (fun r => match r with O => payload | S _ => [] end) answers [].

(** A client with an empty cache that holds one payload dictionary. *)
Definition fresh_client (payload : jobj) (answers : script) : state script :=
  new_client (fun r => match r with O => payload | S _ => [] end) answers.

Definition ok (body : pyval) : response := mkResponse 200 (Some body).

Definition one_zone_listing : pyval :=
  PDict [("Items", PList [PDict [("Id", PInt 42); ("Domain", PStr "example.com")]]);
         ("HasMoreItems", PBool false)].

Definition page1 : pyval :=
  PDict [("Items", PList [PDict [("Id", PInt 1); ("Domain", PStr "a.example")]]);
         ("HasMoreItems", PBool true)].

Definition page2 : pyval :=
  PDict [("Items", PList [PDict [("Id", PInt 2); ("Domain", PStr "b.example")];
                          PDict [("Id", PInt 3); ("Domain", PStr "c.example")]]);
         ("HasMoreItems", PBool false)].

(** An account that hosts [old.example] as zone 7. *)
Definition old_account : account := mkAccount [("old.example", 7)].

Definition a_record : jobj :=
  [("Type", PStr "A"); ("Name", PStr "www"); ("Value", PStr "192.0.2.1")].

Definition created_zone (id : Z) : pyval :=
  PDict [("Id", PInt id); ("Domain", PStr "example.com")].

(** ** Vocabulary of the further properties *)

(** The exchanges of a listing that is served in the pages [pgs], the first
    of them as page [page]. *)
Fixpoint listed (page : Z) (pgs : list (response * zdict)) : list exchange :=
  match pgs with
  | [] => []
  | (r, _) :: rest => (listing_request page, r) :: listed (page + 1) rest
  end.

(** A dictionary as Python keeps it: every key is hashable and no two keys
    are equal. *)
Fixpoint distinct_keys (d : zdict) : Prop :=
  match d with
  | [] => True
  | (k, _) :: d' => hashable k = true /\ zget d' k = None /\ distinct_keys d'
  end.

(** The state after binds every key the state before binds. *)
Definition keeps_bindings {W : Type} (s s' : state W) : Prop :=
  forall k, zget (_zones s) k <> None -> zget (_zones s') k <> None.

(** The state after has the payload objects of the state before. *)
Definition same_payloads {W : Type} (s s' : state W) : Prop :=
  forall r, heap s' r = heap s r.

(** The state after has the payload objects of the state before, the one
    at [r0] apart. *)
Definition same_payloads_but {W : Type} (r0 : ref) (s s' : state W) : Prop :=
  forall r, r <> r0 -> heap s' r = heap s r.

(** The step sends nothing and leaves the cache and the provider alone. *)
Definition offline {W : Type} (s s' : state W) : Prop :=
  sent s' = sent s /\ remote s' = remote s /\ _zones s' = _zones s.

(** The step sends nothing and leaves the payloads and the provider alone. *)
Definition cache_only {W : Type} (s s' : state W) : Prop :=
  sent s' = sent s /\ remote s' = remote s /\ heap s' = heap s.

(** A cache whose keys are distinct before has distinct keys after. *)
Definition keeps_distinct {W : Type} (s s' : state W) : Prop :=
  distinct_keys (_zones s) -> distinct_keys (_zones s').

(** The request [record_delete] sends. *)
Definition delete_request (zone_id record_id : pyval) : request :=
  mkRequest DELETE
    [Lit API_ROOT; Lit "/dnszone/"; Fmt zone_id; Lit "/records/"; Fmt record_id]
    None None.

(** The request [zone_create] sends. *)
Definition zone_create_request (zone_name : string) : request :=
  mkRequest POST [Lit API_ROOT; Lit "/dnszone"] None
    (Some [("Domain", PStr zone_name)]).

(** An exchange of an operation on the zone it resolved: its verb, and a
    URL under the zone's own path. *)
Definition on_zone (v : verb) (x : exchange) : Prop :=
  method (fst x) = v /\
  exists zone_id rest,
    url (fst x) = Lit API_ROOT :: Lit "/dnszone/" :: Fmt zone_id :: rest.

(** What a run sent: listing requests, then at most one request with the
    verb [v] on the zone it resolved. *)
Definition lists_then {W : Type} (v : verb) (s s' : state W) : Prop :=
  exists pages tail,
    sent s' = sent s ++ pages ++ tail /\
    Forall is_listing pages /\
    (List.length tail <= 1)%nat /\
    Forall (on_zone v) tail.

Section Serving.
Context {W : Type} `{Provider W}.

(** The provider in state [w] serves the listing, from page [page] on, in
    the pages [pgs] (each a response and the pairs of its items): every page
    but the last announces more items.  [w'] is its state after the last. *)
Inductive serves : W -> Z -> list (response * zdict) -> W -> Prop :=
| serves_last (w w' : W) (page : Z) (r : response) (body : pyval)
    (pairs : zdict) :
    respond w (listing_request page) = (r, w') ->
    200 <= status_code r < 300 ->
    decoded r = Some body ->
    page_of body pairs false ->
    serves w page [(r, pairs)] w'
| serves_more (w w1 w' : W) (page : Z) (r : response) (body : pyval)
    (pairs : zdict) (rest : list (response * zdict)) :
    respond w (listing_request page) = (r, w1) ->
    200 <= status_code r < 300 ->
    decoded r = Some body ->
    page_of body pairs true ->
    serves w1 (page + 1) rest w' ->
    serves w page ((r, pairs) :: rest) w'.

(** The provider answers every listing request with a page that announces
    more items. *)
Definition always_more : Prop :=
  forall (w : W) (page : Z),
    exists r w' body pairs,
      respond w (listing_request page) = (r, w') /\
      200 <= status_code r < 300 /\
      decoded r = Some body /\
      page_of body pairs true.
End Serving.

(** A provider whose listing never ends: every page is empty and announces
    more items. *)
Inductive busy : Type := Busy.

Definition endless_page : pyval :=
  PDict [("Items", PList []); ("HasMoreItems", PBool true)].

#[export] Instance endless : Provider busy :=
  fun w _ => (ok endless_page, w).

Definition middle_page : pyval :=
  PDict [("Items", PList [PDict [("Id", PInt 2); ("Domain", PStr "b.example")]]);
         ("HasMoreItems", PBool true)].

(** A client whose cache binds [example.com] to the ID 0. *)
Definition zero_id_client (answers : script) : state script :=
  mkState [(PStr "example.com", PInt 0)] (fun _ => []) answers [].

Definition page3 : pyval :=
  PDict [("Items", PList [PDict [("Id", PInt 4); ("Domain", PStr "d.example")]]);
         ("HasMoreItems", PBool false)].

(** * Properties *)

(** ** Keys and dictionaries *)

Lemma key_eqb_refl (k : pyval) : hashable k = true -> key_eqb k k = true.
Proof.
  destruct k; simpl; try discriminate; intros _;
    auto using Z.eqb_refl, String.eqb_refl.
Qed.

Lemma key_eqb_sym (a b : pyval) : key_eqb a b = key_eqb b a.
Proof.
  destruct a, b; simpl; auto using Z.eqb_sym, String.eqb_sym.
Qed.

Lemma key_eqb_trans (a b c : pyval) :
  key_eqb a b = true -> key_eqb b c = true -> key_eqb a c = true.
Proof.
  destruct a, b, c; simpl; try discriminate; auto;
    rewrite ?Z.eqb_eq, ?String.eqb_eq; congruence.
Qed.

(** A string key is matched by that string only. *)
Lemma key_eqb_PStr (k : pyval) (name : string) :
  key_eqb k (PStr name) = true -> k = PStr name.
Proof.
  destruct k; simpl; try discriminate.
  rewrite String.eqb_eq. congruence.
Qed.

Lemma zget_not_listed (d : zdict) (name : string) :
  ~ In (PStr name) (map fst d) -> zget d (PStr name) = None.
Proof.
  induction d as [|[k v] d IH]; simpl; intros Hn; [reflexivity|].
  destruct (key_eqb k (PStr name)) eqn:E.
  - apply key_eqb_PStr in E. tauto.
  - apply IH. tauto.
Qed.

Section DictFacts.
Context {K V : Type} (eqb : K -> K -> bool).
Hypothesis eqb_sym : forall a b, eqb a b = eqb b a.
Hypothesis eqb_trans :
  forall a b c, eqb a b = true -> eqb b c = true -> eqb a c = true.

Lemma eqb_same_class (a b c : K) : eqb a b = true -> eqb a c = eqb b c.
Proof.
  intros Hab. destruct (eqb b c) eqn:Hbc.
  - eauto.
  - destruct (eqb a c) eqn:Hac; [|reflexivity].
    rewrite <- Hbc. symmetry. apply eqb_trans with a; [|assumption].
    rewrite eqb_sym. assumption.
Qed.

Lemma dict_get_set (d : list (K * V)) (k k' : K) (v : V) :
  dict_get eqb (dict_set eqb d k v) k'
  = if eqb k k' then Some v else dict_get eqb d k'.
Proof.
  induction d as [|[k0 v0] d IH]; simpl; [reflexivity|].
  destruct (eqb k0 k) eqn:E0; simpl.
  - rewrite (eqb_same_class k0 k k' E0). destruct (eqb k k'); reflexivity.
  - rewrite IH. destruct (eqb k0 k') eqn:E1, (eqb k k') eqn:E2; try reflexivity.
    rewrite (eqb_sym k k') in E2.
    rewrite (eqb_trans _ _ _ E1 E2) in E0. discriminate.
Qed.

Lemma dict_get_app (a b : list (K * V)) (k : K) :
  dict_get eqb (a ++ b) k
  = match dict_get eqb a k with
    | Some v => Some v
    | None => dict_get eqb b k
    end.
Proof.
  induction a as [|[k0 v0] a IH]; simpl; [reflexivity|].
  destruct (eqb k0 k); auto.
Qed.

(** After [d.update(l)] a key is bound by its last pair in [l], and by [d]
    when [l] does not bind it. *)
Lemma dict_get_update (l d : list (K * V)) (k : K) :
  dict_get eqb (dict_update eqb d l) k
  = match dict_get eqb (rev l) k with
    | Some v => Some v
    | None => dict_get eqb d k
    end.
Proof.
  revert d. induction l as [|[k0 v0] l IH]; intros d; simpl; [reflexivity|].
  unfold dict_update in *. simpl. rewrite IH, dict_get_app, dict_get_set. simpl.
  destruct (dict_get eqb (rev l) k); [reflexivity|].
  destruct (eqb k0 k); reflexivity.
Qed.

Lemma dict_get_In (d : list (K * V)) (k : K) (v : V) :
  dict_get eqb d k = Some v -> exists k', In (k', v) d /\ eqb k' k = true.
Proof.
  induction d as [|[k0 v0] d IH]; simpl; [discriminate|].
  destruct (eqb k0 k) eqn:E.
  - intros [= ->]. eauto.
  - intros Hd. destruct (IH Hd) as (k' & Hin & Hk). eauto.
Qed.

Lemma In_dict_get (d : list (K * V)) (k : K) (v : V) :
  In (k, v) d -> eqb k k = true -> dict_get eqb d k <> None.
Proof.
  induction d as [|[k0 v0] d IH]; simpl; [tauto|].
  intros [[= -> ->]|Hin] Hk.
  - rewrite Hk. discriminate.
  - destruct (eqb k0 k); [discriminate|auto].
Qed.

Lemma dict_get_set_same (d : list (K * V)) (k : K) (v : V) :
  eqb k k = true -> dict_get eqb (dict_set eqb d k v) k = Some v.
Proof. intros Hk. rewrite dict_get_set, Hk. reflexivity. Qed.
End DictFacts.

Lemma zget_update (l d : zdict) (k : pyval) :
  zget (dict_update key_eqb d l) k
  = match zget (rev l) k with
    | Some v => Some v
    | None => zget d k
    end.
Proof. apply dict_get_update; [exact key_eqb_sym | exact key_eqb_trans]. Qed.

Lemma jget_jset_same (d : jobj) (k : string) (v : pyval) :
  jget (jset d k v) k = Some v.
Proof.
  induction d as [|[k0 v0] d IH]; simpl.
  - rewrite String.eqb_refl. reflexivity.
  - destruct (String.eqb k0 k) eqn:E; simpl; rewrite E; auto.
Qed.

Lemma jpop_shorter (d : jobj) (k : string) :
  jget d k <> None -> (List.length (jpop d k) < List.length d)%nat.
Proof.
  induction d as [|[k0 v0] d IH]; simpl; [congruence|].
  destruct (String.eqb k0 k); simpl; intros Hd; [lia|].
  specialize (IH Hd). lia.
Qed.

Lemma jget_jpop_other (d : jobj) (k k' : string) :
  String.eqb k k' = false -> jget (jpop d k) k' = jget d k'.
Proof.
  intros Hk. induction d as [|[k0 v0] d IH]; simpl; [reflexivity|].
  destruct (String.eqb k0 k) eqn:E; simpl.
  - apply String.eqb_eq in E. subst k0. rewrite Hk. reflexivity.
  - rewrite IH. reflexivity.
Qed.

Lemma jget_jpop_same (d : jobj) (k : string) :
  NoDup (map fst d) -> jget (jpop d k) k = None.
Proof.
  induction d as [|[k0 v0] d IH]; simpl; [reflexivity|].
  intros Hnd. inversion Hnd as [|? ? Hnotin Hnd']; subst.
  destruct (String.eqb k0 k) eqn:E; simpl.
  - apply String.eqb_eq in E. subst k0.
    clear IH Hnd Hnd'. induction d as [|[k1 v1] d IH]; simpl; [reflexivity|].
    simpl in Hnotin. destruct (String.eqb k1 k) eqn:E1.
    + apply String.eqb_eq in E1. tauto.
    + apply IH. tauto.
  - rewrite E. auto.
Qed.

Lemma jpop_absent (d : jobj) (k : string) : jget d k = None -> jpop d k = d.
Proof.
  induction d as [|[k0 v0] d IH]; simpl; [reflexivity|].
  destruct (String.eqb k0 k); [discriminate|]. intros Hd. rewrite IH; auto.
Qed.

(** ** The request layer *)

Section ClientFacts.
Context {W : Type} `{Provider W}.

Lemma _request_run (meth : verb) (path : fstring) (ps data : option jobj)
    (s : state W) :
  let rq := mkRequest meth (Lit API_ROOT :: path) ps data in
  let a := respond (remote s) rq in
  _request meth path ps data s
  = (match status_exn (status_code (fst a)) with
     | Some e => Raise e
     | None => Ret (fst a)
     end,
     mkState (_zones s) (heap s) (snd a) (sent s ++ [(rq, fst a)])).
Proof.
  cbv zeta. unfold _request, bind, session_request, raise_for_status, status_exn.
  destruct (respond _ _) as [r w]; simpl.
  destruct (status_code r =? 401); [reflexivity|].
  destruct (status_code r =? 404); [reflexivity|].
  destruct ((400 <=? status_code r) && (status_code r <? 600)); reflexivity.
Qed.

(** *** Steps that relate the state before to the state after *)

Section Steps.
Variable R : state W -> state W -> Prop.
Hypothesis R_refl : forall s, R s s.
Hypothesis R_trans : forall s1 s2 s3, R s1 s2 -> R s2 s3 -> R s1 s3.

Lemma steps_ret {A} (a : A) : steps R (ret a).
Proof. intros s. apply R_refl. Qed.

Lemma steps_raise {A} (e : exn) : steps R (@raise W A e).
Proof. intros s. apply R_refl. Qed.

Lemma steps_out_of_fuel {A} : steps R (@out_of_fuel W A).
Proof. intros s. apply R_refl. Qed.

Lemma steps_gets {A} (f : state W -> A) : steps R (gets f).
Proof. intros s. apply R_refl. Qed.

Lemma steps_lift {A} (r : exn + A) : steps R (lift r).
Proof. destruct r; [apply steps_raise | apply steps_ret]. Qed.

Lemma steps_bind {A B} (m : M W A) (f : A -> M W B) :
  steps R m -> (forall a, steps R (f a)) -> steps R (bind m f).
Proof.
  intros Hm Hf s. unfold bind. specialize (Hm s).
  destruct (m s) as [[a|e|] s1]; simpl in *; auto.
  apply R_trans with s1; [assumption | apply Hf].
Qed.

Lemma steps_for_each {A} (body : A -> M W unit) (l : list A) :
  (forall x, steps R (body x)) -> steps R (for_each body l).
Proof.
  intros Hb. induction l as [|x l IH]; simpl.
  - apply steps_ret.
  - apply steps_bind; auto.
Qed.
End Steps.

Lemma only_lists_refl (s : state W) : only_lists s s.
Proof. split; [reflexivity|]. exists []. rewrite app_nil_r. auto. Qed.

Lemma only_lists_trans (s1 s2 s3 : state W) :
  only_lists s1 s2 -> only_lists s2 s3 -> only_lists s1 s3.
Proof.
  intros [Hh1 (d1 & Hs1 & Hd1)] [Hh2 (d2 & Hs2 & Hd2)]. split; [congruence|].
  exists (d1 ++ d2). rewrite Hs2, Hs1, app_assoc. split; [reflexivity|].
  apply Forall_app; auto.
Qed.

Lemma zones_setitem_only_lists (k v : pyval) :
  steps (W:=W) only_lists (zones_setitem k v).
Proof.
  intros s. unfold zones_setitem. destruct (hashable k); simpl.
  - split; [reflexivity|]. exists []. rewrite app_nil_r. auto.
  - apply only_lists_refl.
Qed.

Lemma listing_only_lists (page : Z) :
  steps (W:=W) only_lists
    (_request GET [Lit "/dnszone"] (Some [("page", PInt page)]) None).
Proof.
  intros s. rewrite _request_run. simpl. split; [reflexivity|].
  eexists. split; [reflexivity|]. constructor; [|constructor].
  exists page. reflexivity.
Qed.

Ltac only_lists_steps :=
  repeat first
    [ apply listing_only_lists
    | apply zones_setitem_only_lists
    | apply (steps_lift only_lists only_lists_refl)
    | apply (steps_ret only_lists only_lists_refl)
    | apply (steps_raise only_lists only_lists_refl)
    | apply (steps_gets only_lists only_lists_refl)
    | apply (steps_out_of_fuel only_lists only_lists_refl)
    | apply (steps_bind only_lists only_lists_trans); [|intros] ].

Lemma cache_item_only_lists (z : pyval) : steps (W:=W) only_lists (cache_item z).
Proof. unfold cache_item. only_lists_steps. Qed.

Lemma _cache_zones_from_only_lists (fuel : nat) (page : Z) :
  steps (W:=W) only_lists (_cache_zones_from fuel page).
Proof.
  revert page. induction fuel as [|fuel IH]; intros page;
    cbn [_cache_zones_from]; only_lists_steps.
  - apply (steps_for_each only_lists only_lists_refl only_lists_trans).
    apply cache_item_only_lists.
  - match goal with |- steps _ (if ?b then _ else _) => destruct b end;
      [only_lists_steps | apply IH].
Qed.

(** *** Resolving a zone name *)

Lemma zones_ensure_cached (fuel : nat) (s : state W) :
  zones fuel s
  = (ensure_cached fuel ;;; gets (fun s => map fst (_zones s))) s.
Proof. reflexivity. Qed.

Lemma _get_zone_id_run (fuel : nat) (zone_name : string) (s : state W) :
  _get_zone_id fuel zone_name s
  = match ensure_cached fuel s with
    | (Ret _, s1) =>
        (match zget (_zones s1) (PStr zone_name) with
         | Some v => if py_truthy v then Ret v else Raise BunnyClientNotFound
         | None => Raise BunnyClientNotFound
         end, s1)
    | (Raise e, s1) => (Raise e, s1)
    | (OutOfFuel, s1) => (OutOfFuel, s1)
    end.
Proof.
  unfold _get_zone_id, ensure_cached, bind, gets. simpl.
  destruct ((if zones_empty s then _cache_zones fuel else ret tt) s)
    as [[[]|e|] s1]; try reflexivity.
  destruct (zget (_zones s1) (PStr zone_name)) as [v|]; simpl; [|reflexivity].
  destruct (py_truthy v); reflexivity.
Qed.

Lemma ensure_cached_only_lists (fuel : nat) :
  steps (W:=W) only_lists (ensure_cached fuel).
Proof.
  unfold ensure_cached. only_lists_steps.
  destruct a; [apply _cache_zones_from_only_lists | only_lists_steps].
Qed.

Lemma ensure_cached_hit (fuel : nat) (s : state W) :
  _zones s <> [] -> ensure_cached fuel s = (Ret tt, s).
Proof.
  intros Hz. unfold ensure_cached, bind, gets, zones_empty. simpl.
  destruct (_zones s); [congruence | reflexivity].
Qed.

Lemma _get_zone_id_only_lists (fuel : nat) (zone_name : string) :
  steps (W:=W) only_lists (_get_zone_id fuel zone_name).
Proof.
  intros s. rewrite _get_zone_id_run.
  pose proof (ensure_cached_only_lists fuel s) as Hs.
  destruct (ensure_cached fuel s) as [[[]|e|] s1]; exact Hs.
Qed.

(** A name the cache resolves costs no request. *)
Lemma _get_zone_id_hit (fuel : nat) (zone_name : string) (s : state W)
    (zone_id : pyval) :
  zget (_zones s) (PStr zone_name) = Some zone_id ->
  py_truthy zone_id = true ->
  _get_zone_id fuel zone_name s = (Ret zone_id, s).
Proof.
  intros Hg Ht. rewrite _get_zone_id_run, ensure_cached_hit.
  - rewrite Hg, Ht. reflexivity.
  - intros Hz. rewrite Hz in Hg. discriminate.
Qed.

Lemma _get_zone_id_cached (fuel : nat) (zone_name : string) (s s1 : state W)
    (r : outcome pyval) :
  _zones s <> [] -> _get_zone_id fuel zone_name s = (r, s1) -> s1 = s.
Proof.
  intros Hz. rewrite _get_zone_id_run, ensure_cached_hit by assumption.
  congruence.
Qed.

Lemma zones_inv (fuel : nat) (s s' : state W) (names : list pyval) :
  zones fuel s = (Ret names, s') ->
  ensure_cached fuel s = (Ret tt, s') /\ names = map fst (_zones s').
Proof.
  rewrite zones_ensure_cached. unfold bind, gets.
  destruct (ensure_cached fuel s) as [[[]|e|] s1]; intros [= <- <-].
  split; reflexivity.
Qed.

(** ** Unknown zones and repeated listings *)

(** C6.  A zone name that is not in the cache once the cache is loaded:
    get zone, create record, update record and delete record raise
    [BunnyClientNotFound], and the only requests they send are the listing
    requests of the cache load (none when the cache was already loaded).
    The load is the one [zones] performs: [zones] and the four operations
    start with the same two lines. *)
Theorem unknown_zone_not_found_without_request
    (fuel : nat) (s s' : state W) (names : list pyval) (zone_name : string)
    (record_id : pyval) (record_data : ref) :
  zones fuel s = (Ret names, s') ->
  ~ In (PStr zone_name) names ->
  zone fuel zone_name s = (Raise BunnyClientNotFound, s')
  /\ record_create fuel zone_name record_data s
     = (Raise BunnyClientNotFound, s')
  /\ record_update fuel zone_name record_id record_data s
     = (Raise BunnyClientNotFound, s')
  /\ record_delete fuel zone_name record_id s
     = (Raise BunnyClientNotFound, s')
  /\ (exists pages, sent s' = sent s ++ pages /\ Forall is_listing pages)
  /\ (_zones s <> [] -> s' = s).
Proof.
  intros Hz Hn. apply zones_inv in Hz. destruct Hz as [He ->].
  apply zget_not_listed in Hn.
  assert (Hid : _get_zone_id fuel zone_name s = (Raise BunnyClientNotFound, s')).
  { rewrite _get_zone_id_run, He, Hn. reflexivity. }
  unfold zone, record_create, record_update, record_delete, bind.
  rewrite Hid. repeat split.
  - pose proof (ensure_cached_only_lists fuel s) as Hs.
    rewrite He in Hs. apply Hs.
  - intros Hne. rewrite ensure_cached_hit in He by assumption. congruence.
Qed.

(** C4, amended.  When [zones] returns at least one name, a second call
    returns the same names and changes nothing: no request is sent. *)
Theorem zones_twice_reuses_cache
    (fuel fuel' : nat) (s s' : state W) (names : list pyval) :
  zones fuel s = (Ret names, s') ->
  names <> [] ->
  zones fuel' s' = (Ret names, s').
Proof.
  intros Hz Hn. apply zones_inv in Hz. destruct Hz as [_ ->].
  rewrite zones_ensure_cached. unfold bind. rewrite ensure_cached_hit.
  - reflexivity.
  - intros Hz. rewrite Hz in Hn. apply Hn. reflexivity.
Qed.
End ClientFacts.

(** ** Status codes and outcomes *)

Section Tracked.
Context {W : Type} `{Provider W}.

Lemma tracked_silent {A} (m : M W A) :
  (forall s, sent (snd (m s)) = sent s) -> tracked (W:=W) m.
Proof.
  intros Hm s. exists []. rewrite app_nil_r. split; [apply Hm|].
  apply verdict_quiet. constructor.
Qed.

Lemma tracked_ret {A} (a : A) : tracked (W:=W) (@ret W A a).
Proof. apply tracked_silent. reflexivity. Qed.

Lemma tracked_raise {A} (e : exn) : tracked (W:=W) (@raise W A e).
Proof. apply tracked_silent. reflexivity. Qed.

Lemma tracked_out_of_fuel {A} : tracked (W:=W) (@out_of_fuel W A).
Proof. apply tracked_silent. reflexivity. Qed.

Lemma tracked_gets {A} (f : state W -> A) : tracked (W:=W) (gets f).
Proof. apply tracked_silent. reflexivity. Qed.

Lemma tracked_lift {A} (r : exn + A) : tracked (W:=W) (@lift W A r).
Proof. destruct r; [apply tracked_raise | apply tracked_ret]. Qed.

Lemma tracked_zones_setitem (k v : pyval) : tracked (W:=W) (zones_setitem k v).
Proof.
  apply tracked_silent. intros s. unfold zones_setitem.
  destruct (hashable k); reflexivity.
Qed.

Lemma tracked_payload_modify (r : ref) (f : jobj -> jobj) :
  tracked (W:=W) (payload_modify r f).
Proof. apply tracked_silent. reflexivity. Qed.

Lemma tracked__request (meth : verb) (path : fstring) (ps data : option jobj) :
  tracked (W:=W) (_request meth path ps data).
Proof.
  intros s. rewrite _request_run. simpl. eexists. split; [reflexivity|].
  destruct (status_exn _) as [e|] eqn:E.
  - apply (verdict_raised []); [constructor | exact E].
  - apply verdict_quiet. constructor; [exact E | constructor].
Qed.

Lemma verdict_Ret_quiet {A} (a : A) (d : list exchange) :
  verdict (Ret a) d -> quiet d.
Proof. inversion 1; assumption. Qed.

Lemma verdict_retype {A B} (r : outcome A) (r' : outcome B) (d : list exchange) :
  (forall e, r = Raise e -> r' = Raise e) -> verdict r d -> verdict r' d.
Proof.
  intros Hr Hv. destruct Hv as [r d Hq|d x e Hq Hx].
  - apply verdict_quiet. assumption.
  - rewrite (Hr e eq_refl). apply verdict_raised; assumption.
Qed.

Lemma verdict_after_quiet {A} (r : outcome A) (d1 d2 : list exchange) :
  quiet d1 -> verdict r d2 -> verdict r (d1 ++ d2).
Proof.
  intros Hq1 Hv. destruct Hv as [r d Hq|d x e Hq Hx].
  - apply verdict_quiet. apply Forall_app. auto.
  - rewrite app_assoc. apply verdict_raised; [|assumption].
    apply Forall_app. auto.
Qed.

Lemma tracked_bind {A B} (m : M W A) (f : A -> M W B) :
  tracked (W:=W) m -> (forall a, tracked (W:=W) (f a)) -> tracked (W:=W) (bind m f).
Proof.
  intros Hm Hf s. unfold bind. destruct (Hm s) as (d1 & Hs1 & Hv1).
  destruct (m s) as [[a|e|] s1]; simpl in *.
  - destruct (Hf a s1) as (d2 & Hs2 & Hv2). exists (d1 ++ d2). split.
    + rewrite Hs2, Hs1, app_assoc. reflexivity.
    + apply verdict_after_quiet; [|assumption].
      apply verdict_Ret_quiet in Hv1. assumption.
  - exists d1. split; [assumption|].
    apply (verdict_retype (A:=A) (Raise e)); [congruence | assumption].
  - exists d1. split; [assumption|].
    apply (verdict_retype (A:=A) OutOfFuel); [discriminate | assumption].
Qed.

Lemma tracked_for_each {A} (body : A -> M W unit) (l : list A) :
  (forall x, tracked (W:=W) (body x)) -> tracked (W:=W) (for_each body l).
Proof.
  intros Hb. induction l as [|x l IH]; simpl.
  - apply tracked_ret.
  - apply tracked_bind; auto.
Qed.

Ltac tracked_steps :=
  repeat first
    [ apply tracked__request
    | apply tracked_zones_setitem
    | apply tracked_payload_modify
    | apply tracked_lift
    | apply tracked_ret
    | apply tracked_raise
    | apply tracked_gets
    | apply tracked_out_of_fuel
    | apply tracked_for_each; intros
    | apply tracked_bind; [|intros]
    | match goal with
      | |- tracked (let _ := _ in _) => cbv zeta
      | |- tracked (if ?b then _ else _) => destruct b
      | |- tracked (match ?x with _ => _ end) => destruct x
      end ].

Lemma tracked__cache_zones_from (fuel : nat) (page : Z) :
  tracked (W:=W) (_cache_zones_from fuel page).
Proof.
  revert page. induction fuel as [|fuel IH]; intros page;
    cbn [_cache_zones_from]; tracked_steps;
    try (unfold cache_item; tracked_steps); apply IH.
Qed.

Ltac tracked_ops :=
  tracked_steps; try apply tracked__cache_zones_from.

Lemma tracked__get_zone_id (fuel : nat) (zone_name : string) :
  tracked (W:=W) (_get_zone_id fuel zone_name).
Proof. unfold _get_zone_id. tracked_ops. Qed.

Lemma tracked__handle_record_data (record_data : ref) (update : bool) :
  tracked (W:=W) (_handle_record_data record_data update).
Proof. unfold _handle_record_data, payload_get. tracked_ops. Qed.

Lemma tracked_zones (fuel : nat) : tracked (W:=W) (zones fuel).
Proof. unfold zones. tracked_ops. Qed.

Lemma tracked_zone (fuel : nat) (zone_name : string) :
  tracked (W:=W) (zone fuel zone_name).
Proof. unfold zone. tracked_ops. Qed.

Lemma tracked_zone_create (zone_name : string) :
  tracked (W:=W) (zone_create zone_name).
Proof. unfold zone_create, _update_zones_cache. tracked_ops. Qed.

Lemma tracked_record_create (fuel : nat) (zone_name : string) (record_data : ref) :
  tracked (W:=W) (record_create fuel zone_name record_data).
Proof. unfold record_create. tracked_ops. Qed.

Lemma tracked_record_update (fuel : nat) (zone_name : string)
    (record_id : pyval) (record_data : ref) :
  tracked (W:=W) (record_update fuel zone_name record_id record_data).
Proof. unfold record_update. tracked_ops. Qed.

Lemma tracked_record_delete (fuel : nat) (zone_name : string)
    (record_id : pyval) :
  tracked (W:=W) (record_delete fuel zone_name record_id).
Proof. unfold record_delete. tracked_ops. Qed.

Lemma status_exn_401 : status_exn 401 = Some BunnyClientUnauthorized.
Proof. reflexivity. Qed.

Lemma status_exn_404 : status_exn 404 = Some BunnyClientNotFound.
Proof. reflexivity. Qed.

Lemma status_exn_error (code : Z) :
  400 <= code < 600 -> code <> 401 -> code <> 404 ->
  status_exn code = Some (HTTPError code).
Proof.
  intros Hc H1 H4. unfold status_exn.
  destruct (Z.eqb_spec code 401); [contradiction|].
  destruct (Z.eqb_spec code 404); [contradiction|].
  destruct (Z.leb_spec 400 code); [|lia].
  destruct (Z.ltb_spec code 600); [reflexivity | lia].
Qed.

Lemma status_exn_success (code : Z) : 200 <= code < 300 -> status_exn code = None.
Proof.
  intros Hc. unfold status_exn.
  destruct (Z.eqb_spec code 401); [lia|].
  destruct (Z.eqb_spec code 404); [lia|].
  destruct (Z.leb_spec 400 code); [lia | reflexivity].
Qed.

Lemma tracked_maps_status {A} (m : M W A) : tracked (W:=W) m -> maps_status (W:=W) m.
Proof.
  intros Hm s. destruct (Hm s) as (d & Hs & Hv). exists d.
  split; [assumption|]. intros rq rs Hin.
  assert (Hcases :
    forall e, status_exn (status_code rs) = Some e -> fst (m s) = Raise e).
  { intros e He. destruct Hv as [r d Hq|d x e' Hq Hx].
    - unfold quiet in Hq. rewrite Forall_forall in Hq.
      specialize (Hq _ Hin). simpl in Hq. congruence.
    - apply in_app_or in Hin. destruct Hin as [Hin|[->|[]]].
      + unfold quiet in Hq. rewrite Forall_forall in Hq.
        specialize (Hq _ Hin). simpl in Hq. congruence.
      + simpl in Hx. congruence. }
  repeat split.
  - intros E. apply Hcases. rewrite E. reflexivity.
  - intros E. apply Hcases. rewrite E. reflexivity.
  - intros. apply Hcases. apply status_exn_error; assumption.
Qed.

Lemma status_exn_other (code : Z) :
  ~ 400 <= code < 600 -> status_exn code = None.
Proof.
  intros Hc. unfold status_exn.
  destruct (Z.eqb_spec code 401); [lia|].
  destruct (Z.eqb_spec code 404); [lia|].
  destruct (Z.leb_spec 400 code); [|reflexivity].
  destruct (Z.ltb_spec code 600); [lia | reflexivity].
Qed.

(** C5, amended.  In each of the six operations, a response with status
    401 raises [BunnyClientUnauthorized], one with status 404 raises
    [BunnyClientNotFound], and one with any other status from 400 to 599
    raises [HTTPError], the exception of the HTTP library's
    [raise_for_status], which is not a [BunnyClientException].  A response
    with a status outside 400 to 599 is returned by [_request] as it is. *)
Theorem every_operation_maps_status
    (fuel : nat) (zone_name : string) (record_id : pyval) (record_data : ref) :
  maps_status (W:=W) (zones fuel)
  /\ maps_status (W:=W) (zone fuel zone_name)
  /\ maps_status (W:=W) (zone_create zone_name)
  /\ maps_status (W:=W) (record_create fuel zone_name record_data)
  /\ maps_status (W:=W) (record_update fuel zone_name record_id record_data)
  /\ maps_status (W:=W) (record_delete fuel zone_name record_id)
  /\ (forall code, is_BunnyClientException (HTTPError code) = false)
  /\ (forall meth path ps data (s : state W),
        let rq := mkRequest meth (Lit API_ROOT :: path) ps data in
        let r := fst (respond (remote s) rq) in
        ~ 400 <= status_code r < 600 ->
        fst (_request meth path ps data s) = Ret r).
Proof.
  repeat (split;
    [solve [auto using tracked_maps_status, tracked_zones, tracked_zone,
              tracked_zone_create, tracked_record_create,
              tracked_record_update, tracked_record_delete]|]).
  intros meth path ps data s rq r Hc. subst rq r.
  rewrite _request_run. cbv zeta. rewrite (status_exn_other _ Hc). reflexivity.
Qed.
End Tracked.

(** ** The cache load *)

Section CacheLoad.
Context {W : Type} `{Provider W}.

Lemma for_each_cache_item_run (items : list pyval) (pairs : zdict) :
  Forall2 (fun z p => getitem z "Id" = inr (snd p) /\
                      getitem z "Domain" = inr (fst p) /\
                      hashable (fst p) = true) items pairs ->
  forall s : state W,
    for_each cache_item items s
    = (Ret tt, mkState (dict_update key_eqb (_zones s) pairs)
                 (heap s) (remote s) (sent s)).
Proof.
  induction 1 as [|z [k v] items pairs (Hid & Hdom & Hh) _ IH]; intros s.
  - destruct s; reflexivity.
  - simpl in *. unfold bind, cache_item, bind, zones_setitem.
    rewrite Hid, Hdom. simpl. rewrite Hh. rewrite IH. reflexivity.
Qed.

(** One turn of the loop on a page the provider serves with success. *)
Lemma _cache_zones_from_page (fuel : nat) (page : Z) (s : state W)
    (r : response) (w : W) (body : pyval) (pairs : zdict) (more : bool) :
  respond (remote s) (listing_request page) = (r, w) ->
  200 <= status_code r < 300 ->
  decoded r = Some body ->
  page_of body pairs more ->
  _cache_zones_from (S fuel) page s
  = let s1 := mkState (dict_update key_eqb (_zones s) pairs) (heap s) w
                (sent s ++ [(listing_request page, r)]) in
    if more then _cache_zones_from fuel (page + 1) s1 else (Ret tt, s1).
Proof.
  intros Hr Hst Hb (items & Hitems & Hpairs & Hmore).
  cbn [_cache_zones_from]. unfold bind at 1. rewrite _request_run.
  fold (listing_request page). rewrite Hr. simpl fst. simpl snd.
  rewrite (status_exn_success _ Hst).
  unfold bind at 1. unfold json. rewrite Hb. simpl lift. unfold ret at 1.
  unfold bind at 1. rewrite Hitems. simpl lift. unfold ret at 1.
  unfold bind at 1. simpl iterate. simpl lift. unfold ret at 1.
  unfold bind at 1. rewrite (for_each_cache_item_run _ _ Hpairs). simpl.
  unfold bind at 1. rewrite Hmore. simpl.
  destruct more; reflexivity.
Qed.
End CacheLoad.

Section Pagination.
Context {W : Type} `{Provider W}.

(** C7.  On an empty cache, when the provider serves the listing in two
    pages (page 1 with [HasMoreItems] true, page 2 with [HasMoreItems]
    false), [zones] sends exactly the two listing requests, for page 1 and
    then page 2, and the cache is the union of the [(Domain, Id)] pairs of
    both pages: a domain is bound to the Id of its last pair, every binding
    of the cache is a pair of a page, and every pair whose domain has one Id
    is a binding of the cache. *)
Theorem two_page_listing_fills_cache
    (fuel : nat) (s : state W) (r1 r2 : response) (w1 w2 : W)
    (body1 body2 : pyval) (pairs1 pairs2 : zdict) :
  _zones s = [] ->
  respond (remote s) (listing_request 1) = (r1, w1) ->
  200 <= status_code r1 < 300 ->
  decoded r1 = Some body1 ->
  page_of body1 pairs1 true ->
  respond w1 (listing_request 2) = (r2, w2) ->
  200 <= status_code r2 < 300 ->
  decoded r2 = Some body2 ->
  page_of body2 pairs2 false ->
  let cache := dict_update key_eqb [] (pairs1 ++ pairs2) in
  zones (S (S fuel)) s
  = (Ret (map fst cache),
     mkState cache (heap s) w2
       (sent s ++ [(listing_request 1, r1); (listing_request 2, r2)]))
  /\ (forall k, zget cache k = zget (rev (pairs1 ++ pairs2)) k)
  /\ (forall k v, zget cache k = Some v ->
        exists k', In (k', v) (pairs1 ++ pairs2) /\ key_eqb k' k = true)
  /\ (forall k v, In (k, v) (pairs1 ++ pairs2) ->
        (forall k' v', In (k', v') (pairs1 ++ pairs2) ->
                       key_eqb k' k = true -> v' = v) ->
        zget cache k = Some v).
Proof.
  intros Hz Hr1 Hs1 Hb1 Hp1 Hr2 Hs2 Hb2 Hp2 cache.
  assert (Hget : forall k, zget cache k = zget (rev (pairs1 ++ pairs2)) k).
  { intros k. unfold cache. rewrite zget_update.
    destruct (zget (rev (pairs1 ++ pairs2)) k); reflexivity. }
  assert (Hhash : forall k v, In (k, v) (pairs1 ++ pairs2) -> hashable k = true).
  { intros k v Hin. destruct Hp1 as (i1 & _ & F1 & _), Hp2 as (i2 & _ & F2 & _).
    apply in_app_or in Hin. destruct Hin as [Hin|Hin].
    - clear - F1 Hin. induction F1 as [|z p ? ? (_ & _ & Hh) _ IH]; [destruct Hin|].
      destruct Hin as [->|Hin]; auto.
    - clear - F2 Hin. induction F2 as [|z p ? ? (_ & _ & Hh) _ IH]; [destruct Hin|].
      destruct Hin as [->|Hin]; auto. }
  repeat split.
  - unfold zones, bind, gets, zones_empty. rewrite Hz. simpl.
    unfold _cache_zones.
    rewrite (_cache_zones_from_page _ _ _ _ _ _ _ _ Hr1 Hs1 Hb1 Hp1).
    cbv zeta. change (1 + 1) with 2.
    rewrite (_cache_zones_from_page (W:=W) fuel 2 _ r2 w2 body2 pairs2 false);
      try assumption.
    simpl. unfold cache, dict_update. rewrite Hz, fold_left_app, <- app_assoc.
    reflexivity.
  - exact Hget.
  - intros k v Hk. rewrite Hget in Hk.
    destruct (dict_get_In key_eqb _ _ _ Hk) as (k' & Hin & Hk').
    exists k'. rewrite <- in_rev in Hin. auto.
  - intros k v Hin Hfun. rewrite Hget.
    destruct (zget (rev (pairs1 ++ pairs2)) k) as [v'|] eqn:E.
    + destruct (dict_get_In key_eqb _ _ _ E) as (k' & Hin' & Hk').
      rewrite <- in_rev in Hin'. f_equal. eauto.
    + exfalso.
      refine (In_dict_get key_eqb (rev (pairs1 ++ pairs2)) k v _ _ E).
      * rewrite <- in_rev. exact Hin.
      * apply key_eqb_refl. eauto.
Qed.
End Pagination.

(** ** Record payloads *)

Section Records.
Context {W : Type} `{Provider W}.

Lemma heap_with_payload (s : state W) (r : ref) (d : jobj) :
  heap (with_payload s r d) r = d.
Proof. simpl. rewrite Nat.eqb_refl. reflexivity. Qed.

Lemma payload_modify_run (r : ref) (f : jobj -> jobj) (s : state W) :
  payload_modify r f s = (Ret tt, with_payload s r (f (heap s r))).
Proof. reflexivity. Qed.

Lemma RECORD_TYPES_nonempty (t : string) (code : Z) :
  dict_get String.eqb RECORD_TYPES t = Some code -> String.eqb t "" = false.
Proof.
  destruct (String.eqb_spec t ""); [|reflexivity]. subst t. discriminate.
Qed.

Lemma _handle_record_data_create (r : ref) (s : state W) (t : string) (code : Z) :
  jget (heap s r) "Type" = Some (PStr t) ->
  dict_get String.eqb RECORD_TYPES t = Some code ->
  _handle_record_data r false s
  = (Ret r, with_payload s r (jset (heap s r) "Type" (PInt code))).
Proof.
  intros Ht Hc. unfold _handle_record_data, bind, payload_get, gets.
  rewrite Ht. cbn [py_truthy]. rewrite (RECORD_TYPES_nonempty _ _ Hc).
  cbn [negb RECORD_TYPES_get lift ret]. rewrite Hc. reflexivity.
Qed.

Lemma _handle_record_data_create_rejects (r : ref) (s : state W) :
  none_or_absent (jget (heap s r) "Type")
  \/ (exists t, jget (heap s r) "Type" = Some (PStr t) /\
                dict_get String.eqb RECORD_TYPES t = None) ->
  exists msg,
    _handle_record_data r false s = (Raise (BunnyClientException msg), s).
Proof.
  unfold _handle_record_data, bind, payload_get, gets.
  intros [[Ht|Ht]|(t & Ht & Hc)]; rewrite Ht; cbn [py_truthy negb];
    try (eexists; reflexivity).
  destruct (String.eqb t ""); cbn [negb RECORD_TYPES_get lift ret];
    [eexists; reflexivity|].
  rewrite Hc. eexists; reflexivity.
Qed.

Lemma _handle_record_data_update_rejects (r : ref) (s : state W) (v : pyval) :
  jget (heap s r) "Name" = Some v \/ jget (heap s r) "Type" = Some v ->
  v <> PNone ->
  exists msg,
    _handle_record_data r true s = (Raise (BunnyClientException msg), s).
Proof.
  intros Hv Hn. unfold _handle_record_data, bind, payload_get, gets.
  destruct (jget (heap s r) "Name") as [n|] eqn:En.
  - destruct n; try (eexists; reflexivity).
    destruct Hv as [[= <-]|Hv]; [contradiction|]. rewrite Hv.
    destruct v; try (eexists; reflexivity). contradiction.
  - destruct Hv as [Hv|Hv]; [discriminate|]. rewrite Hv.
    destruct v; try (eexists; reflexivity). contradiction.
Qed.

Lemma _handle_record_data_update (r : ref) (s : state W) :
  none_or_absent (jget (heap s r) "Name") ->
  none_or_absent (jget (heap s r) "Type") ->
  _handle_record_data r true s
  = (Ret r,
     with_payload (with_payload s r (jpop (heap s r) "Name")) r
       (jpop (jpop (heap s r) "Name") "Type")).
Proof.
  intros Hn Ht. unfold _handle_record_data, bind, payload_get, gets.
  assert (En : is_None match jget (heap s r) "Name" with
                       | Some v => v | None => PNone end = true)
    by (destruct Hn as [-> | ->]; reflexivity).
  assert (Et : is_None match jget (heap s r) "Type" with
                       | Some v => v | None => PNone end = true)
    by (destruct Ht as [-> | ->]; reflexivity).
  rewrite En, Et. simpl. rewrite Nat.eqb_refl. reflexivity.
Qed.

Lemma _get_zone_id_heap (fuel : nat) (zone_name : string) (s : state W) :
  heap (snd (_get_zone_id fuel zone_name s)) = heap s.
Proof. apply (_get_zone_id_only_lists fuel zone_name s). Qed.

(** What [record_create] does once the zone is resolved and the type is
    one of the table. *)
Lemma record_create_run (fuel : nat) (zone_name : string) (r : ref)
    (s s1 : state W) (zone_id : pyval) (t : string) (code : Z) :
  _get_zone_id fuel zone_name s = (Ret zone_id, s1) ->
  jget (heap s r) "Type" = Some (PStr t) ->
  dict_get String.eqb RECORD_TYPES t = Some code ->
  let body := jset (heap s r) "Type" (PInt code) in
  let rq := create_request zone_id body in
  let s' := snd (record_create fuel zone_name r s) in
  sent s' = sent s1 ++ [(rq, fst (respond (remote s1) rq))]
  /\ heap s' r = body.
Proof.
  intros Hid Ht Hc. pose proof (_get_zone_id_heap fuel zone_name s) as Hh.
  rewrite Hid in Hh. simpl in Hh. cbv zeta.
  unfold record_create, bind. rewrite Hid.
  rewrite (_handle_record_data_create r s1 t code) by (rewrite ?Hh; assumption).
  unfold gets. rewrite heap_with_payload, _request_run, Hh.
  fold (create_request zone_id (jset (heap s r) "Type" (PInt code))).
  destruct (status_exn _); [|destruct (json _)]; simpl;
    rewrite Nat.eqb_refl; auto.
Qed.

(** What [record_update] does once the zone is resolved and the payload
    binds neither a name nor a type. *)
Lemma record_update_run (fuel : nat) (zone_name : string) (record_id : pyval)
    (r : ref) (s s1 : state W) (zone_id : pyval) :
  _get_zone_id fuel zone_name s = (Ret zone_id, s1) ->
  none_or_absent (jget (heap s r) "Name") ->
  none_or_absent (jget (heap s r) "Type") ->
  let body := jpop (jpop (heap s r) "Name") "Type" in
  let rq := update_request zone_id record_id body in
  let s' := snd (record_update fuel zone_name record_id r s) in
  sent s' = sent s1 ++ [(rq, fst (respond (remote s1) rq))]
  /\ heap s' r = body.
Proof.
  intros Hid Hn Ht. pose proof (_get_zone_id_heap fuel zone_name s) as Hh.
  rewrite Hid in Hh. simpl in Hh. cbv zeta.
  unfold record_update, bind. rewrite Hid.
  rewrite (_handle_record_data_update r s1) by (rewrite ?Hh; assumption).
  unfold gets. rewrite heap_with_payload, _request_run, Hh.
  fold (update_request zone_id record_id (jpop (jpop (heap s r) "Name") "Type")).
  destruct (status_exn _); simpl; rewrite Nat.eqb_refl; auto.
Qed.

Lemma listing_is_not_PUT (x : exchange) :
  is_listing x -> method (fst x) = PUT -> False.
Proof. intros [page ->]. discriminate. Qed.

Lemma jpop_le (d : jobj) (k : string) :
  (List.length (jpop d k) <= List.length d)%nat.
Proof.
  induction d as [|[k0 v0] d IH]; simpl; [lia|].
  destruct (String.eqb k0 k); simpl; lia.
Qed.

(** C8.  A create-record call whose payload carries the type ["A"]: the
    body of the request it sends binds [Type] to the integer 0.  Once the
    zone name is resolved the call sends exactly that PUT request, and no
    other PUT request is ever part of the call. *)
Theorem record_create_A_sends_code_zero
    (fuel : nat) (zone_name : string) (record_data : ref) (s : state W) :
  jget (heap s record_data) "Type" = Some (PStr "A") ->
  let body := jset (heap s record_data) "Type" (PInt 0) in
  let s' := snd (record_create fuel zone_name record_data s) in
  jget body "Type" = Some (PInt 0)
  /\ (forall zone_id s1,
        _get_zone_id fuel zone_name s = (Ret zone_id, s1) ->
        exists resp,
          sent s' = sent s1 ++ [(create_request zone_id body, resp)])
  /\ (exists d,
        sent s' = sent s ++ d /\
        forall x, In x d -> method (fst x) = PUT ->
                  json_body (fst x) = Some body).
Proof.
  intros Ht body s'. split; [apply jget_jset_same|].
  assert (Hrun : forall zone_id s1,
    _get_zone_id fuel zone_name s = (Ret zone_id, s1) ->
    sent s' = sent s1 ++ [(create_request zone_id body,
                           fst (respond (remote s1) (create_request zone_id body)))]).
  { intros zone_id s1 Hid.
    apply (record_create_run fuel zone_name record_data s s1 zone_id "A" 0 Hid Ht
             eq_refl). }
  split; [eauto|].
  pose proof (_get_zone_id_only_lists fuel zone_name s) as (_ & pages & Hs & Hp).
  destruct (_get_zone_id fuel zone_name s) as [[zone_id|e|] s1] eqn:Hid;
    simpl in Hs.
  - exists (pages ++ [(create_request zone_id body,
                       fst (respond (remote s1) (create_request zone_id body)))]).
    split.
    + rewrite (Hrun zone_id s1 eq_refl), Hs, app_assoc. reflexivity.
    + intros x Hin Hput. apply in_app_or in Hin. destruct Hin as [Hin|[<-|[]]].
      * rewrite Forall_forall in Hp. destruct (listing_is_not_PUT x); auto.
      * reflexivity.
  - exists pages. subst s'. unfold record_create, bind. rewrite Hid. simpl.
    split; [assumption|]. intros x Hin Hput.
    rewrite Forall_forall in Hp. destruct (listing_is_not_PUT x); auto.
  - exists pages. subst s'. unfold record_create, bind. rewrite Hid. simpl.
    split; [assumption|]. intros x Hin Hput.
    rewrite Forall_forall in Hp. destruct (listing_is_not_PUT x); auto.
Qed.

(** C10.  Create record and update record change the caller's dictionary
    in place, once the zone name is resolved.  Create: a symbolic [Type] of
    the table is overwritten with its integer code, so the dictionary is no
    longer what the caller passed.  Update: the keys [Name] and [Type],
    bound to [None] or missing, are removed, so a dictionary that had one
    of them is no longer what the caller passed. *)
Theorem record_payload_is_mutated_in_place
    (fuel : nat) (zone_name : string) (record_id : pyval) (record_data : ref)
    (s s1 : state W) (zone_id : pyval) :
  _get_zone_id fuel zone_name s = (Ret zone_id, s1) ->
  let before := heap s record_data in
  (forall t code,
     jget before "Type" = Some (PStr t) ->
     dict_get String.eqb RECORD_TYPES t = Some code ->
     let after :=
       heap (snd (record_create fuel zone_name record_data s)) record_data in
     after = jset before "Type" (PInt code)
     /\ jget after "Type" = Some (PInt code)
     /\ after <> before)
  /\ (none_or_absent (jget before "Name") ->
      none_or_absent (jget before "Type") ->
      let after :=
        heap (snd (record_update fuel zone_name record_id record_data s))
          record_data in
      after = jpop (jpop before "Name") "Type"
      /\ (NoDup (map fst before) ->
          jget after "Name" = None /\ jget after "Type" = None)
      /\ (jget before "Name" <> None \/ jget before "Type" <> None ->
          after <> before)).
Proof.
  intros Hid before. split.
  - intros t code Ht Hc after.
    destruct (record_create_run fuel zone_name record_data s s1 zone_id t code
                Hid Ht Hc) as [_ Hafter].
    fold after in Hafter. fold before in Hafter. rewrite Hafter.
    split; [reflexivity|]. split; [apply jget_jset_same|].
    intros E. pose proof (jget_jset_same before "Type" (PInt code)) as Hg.
    rewrite E, Ht in Hg. discriminate.
  - intros Hn Ht after.
    destruct (record_update_run fuel zone_name record_id record_data s s1
                zone_id Hid Hn Ht) as [_ Hafter].
    fold after in Hafter. fold before in Hafter. rewrite Hafter.
    split; [reflexivity|]. split.
    + intros Hnd. split.
      * rewrite jget_jpop_other by reflexivity. apply jget_jpop_same, Hnd.
      * apply jget_jpop_same.
        clear - Hnd. induction before as [|[k0 v0] d IH]; simpl; [constructor|].
        inversion Hnd as [|? ? Hnotin Hnd']; subst.
        destruct (String.eqb k0 "Name"); [assumption|].
        simpl. constructor; [|auto].
        intros Hin. apply Hnotin. clear - Hin.
        induction d as [|[k1 v1] d IH]; simpl in *; [assumption|].
        destruct (String.eqb k1 "Name"); simpl in *; tauto.
    + intros Hpresent E.
      pose proof (jpop_le (jpop before "Name") "Type") as H1.
      pose proof (jpop_le before "Name") as H2.
      destruct Hpresent as [Hp|Hp].
      * apply (jpop_shorter before "Name") in Hp. rewrite E in H1. lia.
      * destruct (jget before "Name") eqn:En.
        -- assert (Hp' : jget before "Name" <> None) by congruence.
           apply (jpop_shorter before "Name") in Hp'. rewrite E in H1. lia.
        -- rewrite (jpop_absent before "Name" En) in E.
           apply (jpop_shorter before "Type") in Hp. rewrite E in Hp. lia.
Qed.

(** C2, amended.  An update-record call whose payload binds [Name] or
    [Type] to a value other than [None], for a zone name the cache
    resolves: the call raises the validation error, a plain
    [BunnyClientException], and sends no request after the zone is
    resolved: none at all when the cache was loaded, the listing requests
    of the cache load otherwise. *)
Theorem record_update_rejects_name_or_type
    (fuel : nat) (zone_name : string) (record_id : pyval) (record_data : ref)
    (s s1 : state W) (zone_id v : pyval) :
  _get_zone_id fuel zone_name s = (Ret zone_id, s1) ->
  jget (heap s record_data) "Name" = Some v
  \/ jget (heap s record_data) "Type" = Some v ->
  v <> PNone ->
  (exists msg,
     record_update fuel zone_name record_id record_data s
     = (Raise (BunnyClientException msg), s1))
  /\ (_zones s <> [] -> s1 = s)
  /\ (exists pages, sent s1 = sent s ++ pages /\ Forall is_listing pages).
Proof.
  intros Hid Hv Hn. pose proof (_get_zone_id_only_lists fuel zone_name s) as Hs.
  rewrite Hid in Hs. destruct Hs as [Hh Hs]. simpl in Hh. repeat split.
  - rewrite <- Hh in Hv.
    destruct (_handle_record_data_update_rejects record_data s1 v Hv Hn)
      as (msg & Hm).
    exists msg. unfold record_update, bind. rewrite Hid, Hm. reflexivity.
  - intros Hz. eapply _get_zone_id_cached; eassumption.
  - exact Hs.
Qed.

(** C3, amended.  A create-record call whose payload has no type (no
    [Type] key, or [None]) or an unrecognized symbolic type, for a zone name
    the cache resolves: the call raises the validation error, a plain
    [BunnyClientException], and sends no request after the zone is
    resolved: none at all when the cache was loaded, the listing requests
    of the cache load otherwise. *)
Theorem record_create_rejects_bad_type
    (fuel : nat) (zone_name : string) (record_data : ref)
    (s s1 : state W) (zone_id : pyval) :
  _get_zone_id fuel zone_name s = (Ret zone_id, s1) ->
  none_or_absent (jget (heap s record_data) "Type")
  \/ (exists t, jget (heap s record_data) "Type" = Some (PStr t) /\
                dict_get String.eqb RECORD_TYPES t = None) ->
  (exists msg,
     record_create fuel zone_name record_data s
     = (Raise (BunnyClientException msg), s1))
  /\ (_zones s <> [] -> s1 = s)
  /\ (exists pages, sent s1 = sent s ++ pages /\ Forall is_listing pages).
Proof.
  intros Hid Ht. pose proof (_get_zone_id_only_lists fuel zone_name s) as Hs.
  rewrite Hid in Hs. destruct Hs as [Hh Hs]. simpl in Hh. repeat split.
  - rewrite <- Hh in Ht.
    destruct (_handle_record_data_create_rejects record_data s1 Ht)
      as (msg & Hm).
    exists msg. unfold record_create, bind. rewrite Hid, Hm. reflexivity.
  - intros Hz. eapply _get_zone_id_cached; eassumption.
  - exact Hs.
Qed.

(** C9, amended.  After a create zone call that succeeds with a truthy
    [Id] (any number but zero), the cache is the cache before with that one
    binding added, and a get zone call for the same name resolves it from
    the cache: it sends the zone-detail request and no listing request. *)
Theorem zone_create_then_zone_skips_listing
    (fuel : nat) (zone_name : string) (s s1 : state W)
    (created zone_id : pyval) :
  zone_create zone_name s = (Ret created, s1) ->
  getitem created "Id" = inr zone_id ->
  py_truthy zone_id = true ->
  _zones s1 = zset (_zones s) (PStr zone_name) zone_id
  /\ zget (_zones s1) (PStr zone_name) = Some zone_id
  /\ sent (snd (zone fuel zone_name s1))
     = sent s1 ++ [(detail_request zone_id,
                    fst (respond (remote s1) (detail_request zone_id)))].
Proof.
  intros Hc Hid Ht.
  assert (Hz : _zones s1 = zset (_zones s) (PStr zone_name) zone_id).
  { revert Hc. unfold zone_create, bind. rewrite _request_run.
    destruct (status_exn _); [discriminate|].
    destruct (json _) as [e|r]; simpl; [discriminate|].
    destruct (getitem r "Id") as [e|id] eqn:Er; simpl; [discriminate|].
    intros [= <- <-]. simpl. congruence. }
  assert (Hg : zget (_zones s1) (PStr zone_name) = Some zone_id).
  { rewrite Hz. apply (dict_get_set_same key_eqb).
    - exact key_eqb_sym.
    - exact key_eqb_trans.
    - apply key_eqb_refl. reflexivity. }
  repeat split; [exact Hz | exact Hg |].
  unfold zone, bind. rewrite (_get_zone_id_hit fuel zone_name s1 zone_id Hg Ht).
  rewrite _request_run. fold (detail_request zone_id).
  destruct (status_exn _); [|destruct (json _)]; reflexivity.
Qed.
End Records.

(** * Examples *)

Lemma unknown_zone_not_found_witness :
  let s := new_client (fun _ => []) old_account in
  let s' := snd (zones 2 s) in
  zones 2 s = (Ret [PStr "old.example"], s')
  /\ zone 2 "missing.example" s = (Raise BunnyClientNotFound, s')
  /\ List.length (sent s') = 1%nat.
Proof.
  cbv zeta.
  pose proof (unknown_zone_not_found_without_request 2
                (new_client (fun _ => []) old_account)
                (snd (zones 2 (new_client (fun _ => []) old_account)))
                [PStr "old.example"] "missing.example" (PInt 1) O) as Hw.
  split; [reflexivity|]. split; [|reflexivity].
  apply Hw; [reflexivity|].
  simpl. intros [E|[]]. discriminate.
Defined.

Lemma zones_twice_reuses_cache_witness :
  let s := new_client (fun _ => []) old_account in
  let s' := snd (zones 2 s) in
  zones 2 s = (Ret [PStr "old.example"], s')
  /\ zones 2 s' = (Ret [PStr "old.example"], s').
Proof.
  cbv zeta. split; [reflexivity|].
  apply (zones_twice_reuses_cache 2 2 (new_client (fun _ => []) old_account));
    [reflexivity | discriminate].
Defined.

(** C4 as stated fails: an account with no zone leaves the cache empty
    after the first listing, so a second [zones] lists again. *)
Lemma zones_twice_lists_twice_without_zones :
  let s := new_client (fun _ => []) (mkAccount []) in
  let s1 := snd (zones 2 s) in
  let s2 := snd (zones 2 s1) in
  fst (zones 2 s) = Ret []
  /\ fst (zones 2 s1) = Ret []
  /\ map fst (sent s1) = [listing_request 1]
  /\ map fst (sent s2) = [listing_request 1; listing_request 1].
Proof. cbv zeta. repeat split; reflexivity. Qed.

Lemma two_page_listing_witness :
  zones 2 (fresh_client [] [ok page1; ok page2])
  = (Ret [PStr "a.example"; PStr "b.example"; PStr "c.example"],
     mkState [(PStr "a.example", PInt 1); (PStr "b.example", PInt 2);
              (PStr "c.example", PInt 3)]
       (heap (fresh_client [] [ok page1; ok page2])) []
       [(listing_request 1, ok page1); (listing_request 2, ok page2)]).
Proof.
  apply (two_page_listing_fills_cache 0 (fresh_client [] [ok page1; ok page2])
           (ok page1) (ok page2) [ok page2] [] page1 page2
           [(PStr "a.example", PInt 1)]
           [(PStr "b.example", PInt 2); (PStr "c.example", PInt 3)]);
    try reflexivity; try (simpl; lia);
    (eexists; repeat split; repeat constructor).
Defined.

Lemma record_create_A_witness :
  let s := cached_client a_record [mkResponse 201 (Some (PDict []))] in
  let body := [("Type", PInt 0); ("Name", PStr "www"); ("Value", PStr "192.0.2.1")] in
  sent (snd (record_create 1 "example.com" O s))
  = [(create_request (PInt 42) body, mkResponse 201 (Some (PDict [])))].
Proof.
  cbv zeta.
  destruct (record_create_A_sends_code_zero 1 "example.com" O
              (cached_client a_record [mkResponse 201 (Some (PDict []))])
              eq_refl) as (_ & Hsent & _).
  destruct (Hsent (PInt 42)
              (cached_client a_record [mkResponse 201 (Some (PDict []))])
              eq_refl) as (resp & Hs).
  reflexivity.
Defined.

Lemma record_payload_is_mutated_witness :
  let s := cached_client a_record [mkResponse 201 (Some (PDict []))] in
  heap s O = a_record
  /\ heap (snd (record_create 1 "example.com" O s)) O
     = [("Type", PInt 0); ("Name", PStr "www"); ("Value", PStr "192.0.2.1")].
Proof.
  cbv zeta. split; [reflexivity|].
  destruct (record_payload_is_mutated_in_place 1 "example.com" (PInt 5) O
              (cached_client a_record [mkResponse 201 (Some (PDict []))])
              (cached_client a_record [mkResponse 201 (Some (PDict []))])
              (PInt 42) eq_refl) as [Hcreate _].
  destruct (Hcreate "A" 0 eq_refl eq_refl) as (Hafter & _).
  exact Hafter.
Defined.

Lemma record_update_rejects_name_witness :
  let s := cached_client [("Name", PStr "www"); ("Value", PStr "192.0.2.1")]
             [mkResponse 204 None] in
  exists msg,
    record_update 1 "example.com" (PInt 5) O s
    = (Raise (BunnyClientException msg), s).
Proof.
  cbv zeta.
  apply (record_update_rejects_name_or_type 1 "example.com" (PInt 5) O
           (cached_client [("Name", PStr "www"); ("Value", PStr "192.0.2.1")]
              [mkResponse 204 None])
           _ (PInt 42) (PStr "www")).
  - reflexivity.
  - left. reflexivity.
  - discriminate.
Defined.

(** C2 as stated fails: a payload whose [Name] is [None] is not refused;
    the key is removed and the update request is sent. *)
Lemma record_update_sends_when_name_is_None :
  let s := cached_client [("Name", PNone); ("Value", PStr "192.0.2.1")]
             [mkResponse 204 None] in
  let s' := snd (record_update 1 "example.com" (PInt 5) O s) in
  fst (record_update 1 "example.com" (PInt 5) O s) = Ret (mkResponse 204 None)
  /\ sent s'
     = [(update_request (PInt 42) (PInt 5) [("Value", PStr "192.0.2.1")],
         mkResponse 204 None)]
  /\ heap s' O = [("Value", PStr "192.0.2.1")].
Proof. cbv zeta. repeat split; reflexivity. Qed.

Lemma record_create_rejects_bad_type_witness :
  let s := cached_client [("Type", PStr "BOGUS"); ("Name", PStr "www")]
             [mkResponse 201 None] in
  exists msg,
    record_create 1 "example.com" O s = (Raise (BunnyClientException msg), s).
Proof.
  cbv zeta.
  apply (record_create_rejects_bad_type 1 "example.com" O
           (cached_client [("Type", PStr "BOGUS"); ("Name", PStr "www")]
              [mkResponse 201 None])
           _ (PInt 42)).
  - reflexivity.
  - right. exists "BOGUS". split; reflexivity.
Defined.

(** C3 as stated fails: on an empty cache the zone is resolved first, so
    the listing request is sent before the type is refused; and for a zone
    the listing does not have, the error is not the validation error. *)
Lemma record_create_lists_before_rejecting :
  let s := fresh_client [("Type", PStr "BOGUS")] [ok one_zone_listing] in
  fst (record_create 1 "example.com" O s)
  = Raise (BunnyClientException
             [Lit "Unsupported resource record type: "; Fmt (PStr "BOGUS")])
  /\ sent (snd (record_create 1 "example.com" O s))
     = [(listing_request 1, ok one_zone_listing)]
  /\ fst (record_create 1 "other.example" O s) = Raise BunnyClientNotFound.
Proof. cbv zeta. repeat split; reflexivity. Qed.

Lemma zone_create_then_zone_witness :
  let s := fresh_client [] [mkResponse 201 (Some (created_zone 42));
                            ok (created_zone 42)] in
  let s1 := snd (zone_create "example.com" s) in
  zone_create "example.com" s = (Ret (created_zone 42), s1)
  /\ map fst (sent (snd (zone 1 "example.com" s1)))
     = [mkRequest POST [Lit API_ROOT; Lit "/dnszone"] None
          (Some [("Domain", PStr "example.com")]);
        detail_request (PInt 42)].
Proof.
  cbv zeta.
  assert (Hc : zone_create "example.com"
                 (fresh_client [] [mkResponse 201 (Some (created_zone 42));
                                   ok (created_zone 42)])
               = (Ret (created_zone 42),
                  snd (zone_create "example.com"
                         (fresh_client [] [mkResponse 201 (Some (created_zone 42));
                                           ok (created_zone 42)]))))
    by reflexivity.
  split; [exact Hc|].
  destruct (zone_create_then_zone_skips_listing 1 "example.com" _ _
              (created_zone 42) (PInt 42) Hc eq_refl eq_refl)
    as (_ & _ & Hs).
  rewrite Hs. reflexivity.
Defined.

(** C9 as stated fails: when the provider answers the creation with the
    Id 0, the cache holds it but [zone] takes it for a miss: it raises
    [BunnyClientNotFound] and sends no zone-detail request. *)
Lemma zone_create_with_Id_zero_then_zone_not_found :
  let s := fresh_client [] [mkResponse 201 (Some (created_zone 0));
                            ok (created_zone 0)] in
  let s1 := snd (zone_create "example.com" s) in
  zone_create "example.com" s = (Ret (created_zone 0), s1)
  /\ _zones s1 = [(PStr "example.com", PInt 0)]
  /\ zone 1 "example.com" s1 = (Raise BunnyClientNotFound, s1).
Proof. cbv zeta. repeat split; reflexivity. Qed.

(** C5 as stated fails: a 500 raises the HTTP library's [HTTPError], which
    is no [BunnyClientException]; and a status such as 304, which is not a
    2xx, raises nothing. *)
Lemma server_error_is_not_a_client_exception :
  fst (record_delete 1 "example.com" (PInt 5)
         (cached_client [] [mkResponse 500 None]))
  = Raise (HTTPError 500)
  /\ is_BunnyClientException (HTTPError 500) = false
  /\ fst (record_delete 1 "example.com" (PInt 5)
            (cached_client [] [mkResponse 304 None]))
     = Ret (mkResponse 304 None).
Proof. repeat split; reflexivity. Qed.

(** C1: the code breaks the invariant.  On a new client, in front of an
    account that hosts [old.example], creating [new.example] leaves a cache
    with that one entry.  From then on [zones] answers from the cache, with
    no listing request, and omits [old.example]; and [zone] reports
    [old.example] as not found without asking the provider, which hosts it
    (a new client lists it). *)
Lemma zone_create_on_empty_cache_hides_hosted_zones :
  let s := new_client (fun _ => []) old_account in
  let s1 := snd (zone_create "new.example" s) in
  fst (zone_create "new.example" s)
  = Ret (PDict [("Id", PInt 8); ("Domain", PStr "new.example")])
  /\ _zones s1 = [(PStr "new.example", PInt 8)]
  /\ hosted (remote s1) = [("old.example", 7); ("new.example", 8)]
  /\ zones 2 s1 = (Ret [PStr "new.example"], s1)
  /\ zone 2 "old.example" s1 = (Raise BunnyClientNotFound, s1)
  /\ fst (zones 2 (new_client (fun _ => []) (remote s1)))
     = Ret [PStr "old.example"; PStr "new.example"].
Proof. cbv zeta. repeat split; reflexivity. Qed.

(** * Further properties *)

(** ** Every operation is made of three effects

    A relation between states that is reflexive and transitive, and that
    one request, one assignment to the cache and one change of a payload
    respect, is respected by every method of the client. *)

Section Walk.
Context {W : Type} `{Provider W}.
Variable R : state W -> state W -> Prop.
Variable touched : ref -> Prop.
Hypothesis R_refl : forall s, R s s.
Hypothesis R_trans : forall s1 s2 s3, R s1 s2 -> R s2 s3 -> R s1 s3.
Hypothesis R_request : forall rq, steps R (session_request rq).
Hypothesis R_setitem : forall k v, steps R (zones_setitem k v).
Hypothesis R_modify : forall r f, touched r -> steps R (payload_modify r f).

Ltac walk :=
  repeat first
    [ apply R_request
    | apply R_setitem
    | apply R_modify; assumption
    | apply (steps_lift R R_refl)
    | apply (steps_ret R R_refl)
    | apply (steps_raise R R_refl)
    | apply (steps_gets R R_refl)
    | apply (steps_out_of_fuel R R_refl)
    | apply (steps_for_each R R_refl R_trans); intros
    | apply (steps_bind R R_trans); [|intros]
    | match goal with
      | |- steps _ (let _ := _ in _) => cbv zeta
      | |- steps _ (if ?b then _ else _) => destruct b
      | |- steps _ (match ?x with _ => _ end) => destruct x
      end ].

Lemma walk__request (meth : verb) (path : fstring) (ps data : option jobj) :
  steps (W:=W) R (_request meth path ps data).
Proof. unfold _request, raise_for_status. walk. Qed.

Lemma walk__cache_zones_from (fuel : nat) (page : Z) :
  steps (W:=W) R (_cache_zones_from fuel page).
Proof.
  revert page. induction fuel as [|fuel IH]; intros page;
    cbn [_cache_zones_from].
  - walk.
  - apply (steps_bind R R_trans); [apply walk__request | intros].
    walk; apply IH.
Qed.

Lemma walk__get_zone_id (fuel : nat) (zone_name : string) :
  steps (W:=W) R (_get_zone_id fuel zone_name).
Proof.
  unfold _get_zone_id, _cache_zones.
  apply (steps_bind R R_trans); [walk | intros empty].
  apply (steps_bind R R_trans);
    [destruct empty; [apply walk__cache_zones_from | walk] | intros].
  walk.
Qed.

Lemma walk__handle_record_data (r : ref) (update : bool) :
  touched r -> steps (W:=W) R (_handle_record_data r update).
Proof. intros Hr. unfold _handle_record_data, payload_get. walk. Qed.

Lemma walk_zones (fuel : nat) : steps (W:=W) R (zones fuel).
Proof.
  unfold zones, _cache_zones.
  apply (steps_bind R R_trans); [walk | intros empty].
  apply (steps_bind R R_trans);
    [destruct empty; [apply walk__cache_zones_from | walk] | intros].
  walk.
Qed.

Lemma walk_zone (fuel : nat) (zone_name : string) :
  steps (W:=W) R (zone fuel zone_name).
Proof.
  unfold zone.
  apply (steps_bind R R_trans); [apply walk__get_zone_id | intros].
  apply (steps_bind R R_trans); [apply walk__request | intros]. walk.
Qed.

Lemma walk_zone_create (zone_name : string) :
  steps (W:=W) R (zone_create zone_name).
Proof.
  unfold zone_create, _update_zones_cache.
  apply (steps_bind R R_trans); [apply walk__request | intros]. walk.
Qed.

Lemma walk_record_create (fuel : nat) (zone_name : string) (r : ref) :
  touched r -> steps (W:=W) R (record_create fuel zone_name r).
Proof.
  intros Hr. unfold record_create.
  apply (steps_bind R R_trans); [apply walk__get_zone_id | intros].
  cbv zeta.
  apply (steps_bind R R_trans);
    [apply walk__handle_record_data; assumption | intros].
  apply (steps_bind R R_trans); [walk | intros].
  apply (steps_bind R R_trans); [apply walk__request | intros]. walk.
Qed.

Lemma walk_record_update (fuel : nat) (zone_name : string)
    (record_id : pyval) (r : ref) :
  touched r -> steps (W:=W) R (record_update fuel zone_name record_id r).
Proof.
  intros Hr. unfold record_update.
  apply (steps_bind R R_trans); [apply walk__get_zone_id | intros].
  cbv zeta.
  apply (steps_bind R R_trans);
    [apply walk__handle_record_data; assumption | intros].
  apply (steps_bind R R_trans); [walk | intros].
  apply walk__request.
Qed.

Lemma walk_record_delete (fuel : nat) (zone_name : string) (record_id : pyval) :
  steps (W:=W) R (record_delete fuel zone_name record_id).
Proof.
  unfold record_delete.
  apply (steps_bind R R_trans); [apply walk__get_zone_id | intros].
  apply walk__request.
Qed.
End Walk.

(** ** What the operations leave alone *)

Section Frames.
Context {W : Type} `{Provider W}.

Lemma session_request_fields (rq : request) (s : state W) :
  _zones (snd (session_request rq s)) = _zones s
  /\ heap (snd (session_request rq s)) = heap s.
Proof.
  unfold session_request. destruct (respond _ _). split; reflexivity.
Qed.

Lemma zones_setitem_fields (k v : pyval) (s : state W) :
  heap (snd (zones_setitem k v s)) = heap s
  /\ sent (snd (zones_setitem k v s)) = sent s
  /\ remote (snd (zones_setitem k v s)) = remote s.
Proof.
  unfold zones_setitem. destruct (hashable k); repeat split; reflexivity.
Qed.

Lemma zget_zset (d : zdict) (k k' v : pyval) :
  zget (zset d k v) k' = if key_eqb k k' then Some v else zget d k'.
Proof. apply dict_get_set; [exact key_eqb_sym | exact key_eqb_trans]. Qed.

Lemma same_payloads_refl (s : state W) : same_payloads s s.
Proof. intros r. reflexivity. Qed.

Lemma same_payloads_trans (s1 s2 s3 : state W) :
  same_payloads s1 s2 -> same_payloads s2 s3 -> same_payloads s1 s3.
Proof. intros H12 H23 r. rewrite H23. apply H12. Qed.

Lemma same_payloads_but_refl (r0 : ref) (s : state W) : same_payloads_but r0 s s.
Proof. intros r _. reflexivity. Qed.

Lemma same_payloads_but_trans (r0 : ref) (s1 s2 s3 : state W) :
  same_payloads_but r0 s1 s2 -> same_payloads_but r0 s2 s3 ->
  same_payloads_but r0 s1 s3.
Proof. intros H12 H23 r Hr. rewrite H23 by assumption. apply H12, Hr. Qed.

Lemma same_payloads_request (rq : request) :
  steps (W:=W) same_payloads (session_request rq).
Proof.
  intros s r. destruct (session_request_fields rq s) as [_ Hh].
  rewrite Hh. reflexivity.
Qed.

Lemma same_payloads_setitem (k v : pyval) :
  steps (W:=W) same_payloads (zones_setitem k v).
Proof.
  intros s r. destruct (zones_setitem_fields k v s) as [Hh _].
  rewrite Hh. reflexivity.
Qed.

Lemma same_payloads_weaken (r0 : ref) (s s' : state W) :
  same_payloads s s' -> same_payloads_but r0 s s'.
Proof. intros Hs r _. apply Hs. Qed.

Lemma same_payloads_but_modify (r0 : ref) (r : ref) (f : jobj -> jobj) :
  r = r0 -> steps (W:=W) (same_payloads_but r0) (payload_modify r f).
Proof.
  intros -> s r' Hr. simpl. apply Nat.eqb_neq in Hr. rewrite Hr. reflexivity.
Qed.

(** X9.  No operation touches a payload object it was not given: list
    zones, get zone, create zone, delete record and clear cache leave
    every payload as it is, and create record and update record leave
    every payload but their own as it is. *)
Theorem operations_keep_other_payloads
    (fuel : nat) (zone_name : string) (record_id : pyval) (record_data : ref)
    (s : state W) :
  same_payloads s (snd (zones fuel s))
  /\ same_payloads s (snd (zone fuel zone_name s))
  /\ same_payloads s (snd (zone_create zone_name s))
  /\ same_payloads s (snd (record_delete fuel zone_name record_id s))
  /\ same_payloads s (snd (clear_zones_cache s))
  /\ same_payloads_but record_data s
       (snd (record_create fuel zone_name record_data s))
  /\ same_payloads_but record_data s
       (snd (record_update fuel zone_name record_id record_data s)).
Proof.
  assert (Hreq : forall rq,
            steps (W:=W) (same_payloads_but record_data) (session_request rq)).
  { intros rq s0. apply same_payloads_weaken, same_payloads_request. }
  assert (Hset : forall k v,
            steps (W:=W) (same_payloads_but record_data) (zones_setitem k v)).
  { intros k v s0. apply same_payloads_weaken, same_payloads_setitem. }
  repeat match goal with |- _ /\ _ => split end.
  - apply (walk_zones same_payloads same_payloads_refl same_payloads_trans
             same_payloads_request same_payloads_setitem).
  - apply (walk_zone same_payloads same_payloads_refl same_payloads_trans
             same_payloads_request same_payloads_setitem).
  - apply (walk_zone_create same_payloads same_payloads_refl same_payloads_trans
             same_payloads_request same_payloads_setitem).
  - apply (walk_record_delete same_payloads same_payloads_refl same_payloads_trans
             same_payloads_request same_payloads_setitem).
  - intros r. reflexivity.
  - apply (walk_record_create (same_payloads_but record_data)
             (fun r => r = record_data) (same_payloads_but_refl record_data)
             (same_payloads_but_trans record_data) Hreq Hset
             (same_payloads_but_modify record_data)).
    reflexivity.
  - apply (walk_record_update (same_payloads_but record_data)
             (fun r => r = record_data) (same_payloads_but_refl record_data)
             (same_payloads_but_trans record_data) Hreq Hset
             (same_payloads_but_modify record_data)).
    reflexivity.
Qed.

Lemma keeps_bindings_refl (s : state W) : keeps_bindings s s.
Proof. intros k Hk. exact Hk. Qed.

Lemma keeps_bindings_trans (s1 s2 s3 : state W) :
  keeps_bindings s1 s2 -> keeps_bindings s2 s3 -> keeps_bindings s1 s3.
Proof. intros H12 H23 k Hk. apply H23, H12, Hk. Qed.

Lemma keeps_bindings_request (rq : request) :
  steps (W:=W) keeps_bindings (session_request rq).
Proof.
  intros s k. destruct (session_request_fields rq s) as [Hz _].
  rewrite Hz. auto.
Qed.

Lemma keeps_bindings_setitem (k v : pyval) :
  steps (W:=W) keeps_bindings (zones_setitem k v).
Proof.
  intros s k'. unfold zones_setitem. destruct (hashable k); simpl; [|auto].
  rewrite zget_zset. destruct (key_eqb k k'); [discriminate | auto].
Qed.

Lemma keeps_bindings_modify (r : ref) (f : jobj -> jobj) :
  True -> steps (W:=W) keeps_bindings (payload_modify r f).
Proof. intros _ s k Hk. exact Hk. Qed.

(** X10.  The cache only grows: a name the cache resolves before one of
    the six operations is a name it resolves after it, whatever the
    outcome.  (Only clear cache removes bindings.) *)
Theorem operations_keep_cached_names
    (fuel : nat) (zone_name : string) (record_id : pyval) (record_data : ref)
    (s : state W) :
  keeps_bindings s (snd (zones fuel s))
  /\ keeps_bindings s (snd (zone fuel zone_name s))
  /\ keeps_bindings s (snd (zone_create zone_name s))
  /\ keeps_bindings s (snd (record_create fuel zone_name record_data s))
  /\ keeps_bindings s
       (snd (record_update fuel zone_name record_id record_data s))
  /\ keeps_bindings s (snd (record_delete fuel zone_name record_id s)).
Proof.
  repeat match goal with |- _ /\ _ => split end.
  - apply (walk_zones keeps_bindings keeps_bindings_refl keeps_bindings_trans
             keeps_bindings_request keeps_bindings_setitem).
  - apply (walk_zone keeps_bindings keeps_bindings_refl keeps_bindings_trans
             keeps_bindings_request keeps_bindings_setitem).
  - apply (walk_zone_create keeps_bindings keeps_bindings_refl keeps_bindings_trans
             keeps_bindings_request keeps_bindings_setitem).
  - apply (walk_record_create keeps_bindings (fun _ => True) keeps_bindings_refl
             keeps_bindings_trans keeps_bindings_request
             keeps_bindings_setitem keeps_bindings_modify).
    exact I.
  - apply (walk_record_update keeps_bindings (fun _ => True) keeps_bindings_refl
             keeps_bindings_trans keeps_bindings_request
             keeps_bindings_setitem keeps_bindings_modify).
    exact I.
  - apply (walk_record_delete keeps_bindings keeps_bindings_refl keeps_bindings_trans
             keeps_bindings_request keeps_bindings_setitem).
Qed.

Lemma distinct_keys_zset (d : zdict) (k v : pyval) :
  hashable k = true -> distinct_keys d -> distinct_keys (zset d k v).
Proof.
  intros Hk. induction d as [|[k0 v0] d IH]; simpl.
  - auto.
  - intros (H0 & Hn & Hd). destruct (key_eqb k0 k) eqn:E; simpl.
    + auto.
    + repeat split; auto.
      fold (zset d k v). rewrite zget_zset, key_eqb_sym, E. exact Hn.
Qed.

Lemma distinct_keys_NoDup (d : zdict) : distinct_keys d -> NoDup (map fst d).
Proof.
  induction d as [|[k v] d IH]; simpl; [constructor|].
  intros (Hk & Hn & Hd). constructor; [|auto].
  intros Hin. apply in_map_iff in Hin. destruct Hin as ([k' v'] & Ek & Hin).
  simpl in Ek. subst k'.
  apply (In_dict_get key_eqb d k v' Hin (key_eqb_refl k Hk)). exact Hn.
Qed.

Lemma keeps_distinct_refl (s : state W) : keeps_distinct s s.
Proof. intros Hd. exact Hd. Qed.

Lemma keeps_distinct_trans (s1 s2 s3 : state W) :
  keeps_distinct s1 s2 -> keeps_distinct s2 s3 -> keeps_distinct s1 s3.
Proof. intros H12 H23 Hd. apply H23, H12, Hd. Qed.

Lemma keeps_distinct_request (rq : request) :
  steps (W:=W) keeps_distinct (session_request rq).
Proof.
  intros s. unfold keeps_distinct.
  destruct (session_request_fields rq s) as [Hz _]. rewrite Hz. auto.
Qed.

Lemma keeps_distinct_setitem (k v : pyval) :
  steps (W:=W) keeps_distinct (zones_setitem k v).
Proof.
  intros s. unfold keeps_distinct, zones_setitem.
  destruct (hashable k) eqn:Hk; simpl; [|auto].
  apply distinct_keys_zset, Hk.
Qed.

Lemma keeps_distinct_modify (r : ref) (f : jobj -> jobj) :
  True -> steps (W:=W) keeps_distinct (payload_modify r f).
Proof. intros _ s Hd. exact Hd. Qed.

(** X11.  The cache stays a dictionary: when its keys are hashable and
    distinct before one of the six operations (as in a new client and
    after clear cache), they are after it, whatever the outcome; so list
    zones never returns a name twice. *)
Theorem operations_keep_cache_keys_distinct
    (fuel : nat) (zone_name : string) (record_id : pyval) (record_data : ref)
    (s : state W) :
  distinct_keys (_zones s) ->
  distinct_keys (_zones (snd (zones fuel s)))
  /\ distinct_keys (_zones (snd (zone fuel zone_name s)))
  /\ distinct_keys (_zones (snd (zone_create zone_name s)))
  /\ distinct_keys (_zones (snd (record_create fuel zone_name record_data s)))
  /\ distinct_keys
       (_zones (snd (record_update fuel zone_name record_id record_data s)))
  /\ distinct_keys (_zones (snd (record_delete fuel zone_name record_id s)))
  /\ (forall names s', zones fuel s = (Ret names, s') -> NoDup names).
Proof.
  intros Hd.
  assert (Hzones : distinct_keys (_zones (snd (zones fuel s)))).
  { apply (walk_zones keeps_distinct keeps_distinct_refl keeps_distinct_trans
             keeps_distinct_request keeps_distinct_setitem fuel s Hd). }
  repeat match goal with |- _ /\ _ => split end.
  - exact Hzones.
  - apply (walk_zone keeps_distinct keeps_distinct_refl keeps_distinct_trans
             keeps_distinct_request keeps_distinct_setitem fuel zone_name s Hd).
  - apply (walk_zone_create keeps_distinct keeps_distinct_refl
             keeps_distinct_trans keeps_distinct_request
             keeps_distinct_setitem zone_name s Hd).
  - apply (walk_record_create keeps_distinct (fun _ => True)
             keeps_distinct_refl keeps_distinct_trans keeps_distinct_request
             keeps_distinct_setitem keeps_distinct_modify fuel zone_name
             record_data I s Hd).
  - apply (walk_record_update keeps_distinct (fun _ => True)
             keeps_distinct_refl keeps_distinct_trans keeps_distinct_request
             keeps_distinct_setitem keeps_distinct_modify fuel zone_name
             record_id record_data I s Hd).
  - apply (walk_record_delete keeps_distinct keeps_distinct_refl
             keeps_distinct_trans keeps_distinct_request
             keeps_distinct_setitem fuel zone_name record_id s Hd).
  - intros names s' Hz. rewrite Hz in Hzones. simpl in Hzones.
    apply zones_inv in Hz. destruct Hz as [_ ->].
    apply distinct_keys_NoDup, Hzones.
Qed.

(** X13.  A name the cache binds to a falsy ID (0, [None], an empty
    string) is taken for a miss: get zone, create record, update record and
    delete record raise [BunnyClientNotFound], send nothing and change
    nothing. *)
Theorem falsy_cached_id_is_not_found
    (fuel : nat) (zone_name : string) (record_id : pyval) (record_data : ref)
    (s : state W) (zone_id : pyval) :
  zget (_zones s) (PStr zone_name) = Some zone_id ->
  py_truthy zone_id = false ->
  zone fuel zone_name s = (Raise BunnyClientNotFound, s)
  /\ record_create fuel zone_name record_data s
     = (Raise BunnyClientNotFound, s)
  /\ record_update fuel zone_name record_id record_data s
     = (Raise BunnyClientNotFound, s)
  /\ record_delete fuel zone_name record_id s
     = (Raise BunnyClientNotFound, s).
Proof.
  intros Hg Hf.
  assert (Hid : _get_zone_id fuel zone_name s = (Raise BunnyClientNotFound, s)).
  { rewrite _get_zone_id_run, ensure_cached_hit.
    - rewrite Hg, Hf. reflexivity.
    - intros Hz. rewrite Hz in Hg. discriminate. }
  unfold zone, record_create, record_update, record_delete, bind.
  rewrite Hid. repeat split.
Qed.

Lemma _handle_record_data_effect
    (record_data : ref) (update : bool) (s : state W) :
  let out := _handle_record_data record_data update s in
  sent (snd out) = sent s
  /\ remote (snd out) = remote s
  /\ _zones (snd out) = _zones s
  /\ same_payloads_but record_data s (snd out)
  /\ (forall e, fst out = Raise e -> snd out = s)
  /\ fst out <> OutOfFuel
  /\ (forall r, fst out = Ret r -> r = record_data).
Proof.
  assert (Hbut : forall d, same_payloads_but record_data s
                             (with_payload s record_data d)).
  { intros d r Hr. simpl. apply Nat.eqb_neq in Hr. rewrite Hr. reflexivity. }
  cbv zeta. unfold _handle_record_data, bind, payload_get, gets.
  cbv beta iota. destruct update.
  - destruct (negb (is_None _));
      [repeat split; solve [apply same_payloads_but_refl | discriminate]|].
    destruct (negb (is_None _));
      [repeat split; solve [apply same_payloads_but_refl | discriminate]|].
    simpl. repeat match goal with |- _ /\ _ => split end;
      try reflexivity; try discriminate.
    + intros r Hr. simpl. apply Nat.eqb_neq in Hr. rewrite Hr. reflexivity.
    + intros r [= <-]. reflexivity.
  - destruct (negb (py_truthy _));
      [repeat split; solve [apply same_payloads_but_refl | discriminate]|].
    destruct (RECORD_TYPES_get _) as [e|[code|]]; cbn [lift ret raise];
      cbv beta iota;
      try (repeat split; solve [apply same_payloads_but_refl | discriminate]).
    rewrite payload_modify_run. cbv beta iota.
    repeat match goal with |- _ /\ _ => split end;
      try reflexivity; try discriminate.
    + apply Hbut.
    + intros r [= <-]. reflexivity.
Qed.

(** X8.  The payload check is all or nothing.  [_handle_record_data] sends
    nothing and leaves the cache, the provider and every other payload
    alone; when it raises, the payload it was given is untouched too; when
    it returns, it returns the very object it was given. *)
Theorem _handle_record_data_all_or_nothing
    (record_data : ref) (update : bool) (s : state W) :
  let out := _handle_record_data record_data update s in
  sent (snd out) = sent s
  /\ remote (snd out) = remote s
  /\ _zones (snd out) = _zones s
  /\ same_payloads_but record_data s (snd out)
  /\ (forall e, fst out = Raise e -> snd out = s)
  /\ fst out <> OutOfFuel
  /\ (forall r, fst out = Ret r -> r = record_data).
Proof. apply _handle_record_data_effect. Qed.

(** X6.  Create zone sends exactly one request, the POST of the domain
    name, and never lists.  When it returns, the provider's response
    decodes to the returned object and the cache is the cache before with
    the name bound to that object's [Id]; when it does not return, the
    cache is as it was.  A response that passes the status check with a
    body that is not JSON raises [JSONDecodeError]. *)
Theorem zone_create_sends_one_request (zone_name : string) (s : state W) :
  let rq := zone_create_request zone_name in
  let r := fst (respond (remote s) rq) in
  let out := zone_create zone_name s in
  sent (snd out) = sent s ++ [(rq, r)]
  /\ remote (snd out) = snd (respond (remote s) rq)
  /\ (forall created,
        fst out = Ret created ->
        decoded r = Some created /\
        exists id, getitem created "Id" = inr id /\
                   _zones (snd out) = zset (_zones s) (PStr zone_name) id)
  /\ ((forall created, fst out <> Ret created) -> _zones (snd out) = _zones s)
  /\ (~ 400 <= status_code r < 600 -> decoded r = None ->
      fst out = Raise JSONDecodeError).
Proof.
  cbv zeta. unfold zone_create, bind. rewrite _request_run.
  fold (zone_create_request zone_name).
  set (a := respond (remote s) (zone_create_request zone_name)).
  destruct (status_exn (status_code (fst a))) as [e|] eqn:Es.
  - repeat split; try discriminate.
    intros Hc _. rewrite (status_exn_other _ Hc) in Es. discriminate.
  - unfold json. destruct (decoded (fst a)) as [body|] eqn:Eb; simpl.
    + destruct (getitem body "Id") as [e|id] eqn:Ei; simpl.
      * repeat split; try discriminate.
      * repeat match goal with |- _ /\ _ => split end; try reflexivity.
        -- intros created [= <-]. split; [reflexivity|]. exists id. auto.
        -- intros Hn. destruct (Hn body). reflexivity.
        -- discriminate.
    + repeat split; try discriminate.
Qed.

Lemma record_create_hit (fuel : nat) (zone_name : string) (r : ref)
    (s : state W) (zone_id : pyval) (t : string) (code : Z) :
  zget (_zones s) (PStr zone_name) = Some zone_id ->
  py_truthy zone_id = true ->
  jget (heap s r) "Type" = Some (PStr t) ->
  dict_get String.eqb RECORD_TYPES t = Some code ->
  let s1 := snd (record_create fuel zone_name r s) in
  _zones s1 = _zones s /\ heap s1 r = jset (heap s r) "Type" (PInt code).
Proof.
  intros Hg Ht Hty Hc.
  pose proof (_get_zone_id_hit fuel zone_name s zone_id Hg Ht) as Hid.
  cbv zeta. split.
  - unfold record_create, bind. rewrite Hid.
    rewrite (_handle_record_data_create r s t code Hty Hc).
    unfold gets. rewrite _request_run.
    destruct (status_exn _); [|destruct (json _)]; reflexivity.
  - apply (record_create_run fuel zone_name r s s zone_id t code Hid Hty Hc).
Qed.

(** X7.  Create record cannot be repeated with the same payload object.
    After a call that passed the type check, the payload's [Type] is the
    integer code, and a second create-record call with that object raises
    the validation error without sending a request. *)
Theorem record_create_is_not_repeatable
    (fuel fuel' : nat) (zone_name : string) (record_data : ref)
    (s : state W) (zone_id : pyval) (t : string) (code : Z) :
  zget (_zones s) (PStr zone_name) = Some zone_id ->
  py_truthy zone_id = true ->
  jget (heap s record_data) "Type" = Some (PStr t) ->
  dict_get String.eqb RECORD_TYPES t = Some code ->
  let s1 := snd (record_create fuel zone_name record_data s) in
  exists msg,
    record_create fuel' zone_name record_data s1
    = (Raise (BunnyClientException msg), s1).
Proof.
  intros Hg Ht Hty Hc s1.
  destruct (record_create_hit fuel zone_name record_data s zone_id t code
              Hg Ht Hty Hc) as [Hz Hh].
  fold s1 in Hz, Hh.
  assert (Hid : _get_zone_id fuel' zone_name s1 = (Ret zone_id, s1)).
  { apply _get_zone_id_hit; [rewrite Hz|]; assumption. }
  assert (Hty1 : jget (heap s1 record_data) "Type" = Some (PInt code)).
  { rewrite Hh. apply jget_jset_same. }
  unfold record_create, bind. rewrite Hid.
  unfold _handle_record_data, bind, payload_get, gets. rewrite Hty1.
  cbn [py_truthy negb RECORD_TYPES_get lift ret].
  destruct (code =? 0); eexists; reflexivity.
Qed.

(** X15.  Get zone needs a JSON body and delete record does not.  For a
    name the cache resolves, get zone sends the zone-detail request and
    raises [JSONDecodeError] when the response passes the status check
    with a body that is not JSON; delete record sends its DELETE request
    and returns the response itself, whatever its body. *)
Theorem body_is_decoded_by_zone_not_by_record_delete
    (fuel : nat) (zone_name : string) (record_id : pyval)
    (s : state W) (zone_id : pyval) :
  zget (_zones s) (PStr zone_name) = Some zone_id ->
  py_truthy zone_id = true ->
  (let r := fst (respond (remote s) (detail_request zone_id)) in
   ~ 400 <= status_code r < 600 ->
   sent (snd (zone fuel zone_name s)) = sent s ++ [(detail_request zone_id, r)]
   /\ fst (zone fuel zone_name s)
      = match decoded r with
        | Some body => Ret body
        | None => Raise JSONDecodeError
        end)
  /\ (let rq := delete_request zone_id record_id in
      let r := fst (respond (remote s) rq) in
      ~ 400 <= status_code r < 600 ->
      sent (snd (record_delete fuel zone_name record_id s))
      = sent s ++ [(rq, r)]
      /\ fst (record_delete fuel zone_name record_id s) = Ret r).
Proof.
  intros Hg Ht.
  pose proof (_get_zone_id_hit fuel zone_name s zone_id Hg Ht) as Hid.
  split; cbv zeta; intros Hc.
  - unfold zone, bind. rewrite Hid, _request_run.
    fold (detail_request zone_id). rewrite (status_exn_other _ Hc).
    unfold json. destruct (decoded _); split; reflexivity.
  - unfold record_delete, bind. rewrite Hid, _request_run.
    fold (delete_request zone_id record_id).
    rewrite (status_exn_other _ Hc). split; reflexivity.
Qed.

Lemma lists_then_nothing (v : verb) (s s1 : state W) (pages : list exchange) :
  sent s1 = sent s ++ pages -> Forall is_listing pages -> lists_then v s s1.
Proof.
  intros Hs Hp. exists pages, []. rewrite app_nil_r.
  repeat split; auto.
Qed.

Lemma lists_then_one (v : verb) (s s1 s2 : state W) (pages : list exchange)
    (x : exchange) :
  sent s1 = sent s ++ pages -> Forall is_listing pages ->
  sent s2 = sent s1 ++ [x] -> on_zone v x -> lists_then v s s2.
Proof.
  intros Hs Hp Hx Hv. exists pages, [x].
  rewrite Hx, Hs, app_assoc. repeat split; auto.
Qed.

Lemma on_zone_request (v : verb) (zone_id : pyval) (rest : fstring)
    (ps data : option jobj) (r : response) :
  on_zone v (mkRequest v (Lit API_ROOT :: Lit "/dnszone/" :: Fmt zone_id :: rest)
               ps data, r).
Proof. split; [reflexivity|]. exists zone_id, rest. reflexivity. Qed.

(** X12.  What an operation puts on the wire.  List zones sends listing
    requests only.  Get zone, create record, update record and delete
    record send the listing requests of a cache load, if any, and then at
    most one request of their own, a GET, PUT, POST or DELETE under the path
    of the zone they resolved; nothing follows it. *)
Theorem operations_send_one_request_after_listing
    (fuel : nat) (zone_name : string) (record_id : pyval) (record_data : ref)
    (s : state W) :
  (exists pages, sent (snd (zones fuel s)) = sent s ++ pages /\
                 Forall is_listing pages)
  /\ lists_then GET s (snd (zone fuel zone_name s))
  /\ lists_then PUT s (snd (record_create fuel zone_name record_data s))
  /\ lists_then POST s
       (snd (record_update fuel zone_name record_id record_data s))
  /\ lists_then DELETE s (snd (record_delete fuel zone_name record_id s)).
Proof.
  pose proof (_get_zone_id_only_lists fuel zone_name s) as (_ & pages & Hs & Hp).
  split.
  { rewrite zones_ensure_cached. unfold bind.
    pose proof (ensure_cached_only_lists fuel s) as (_ & Hl).
    destruct (ensure_cached fuel s) as [[[]|e|] s1]; exact Hl. }
  destruct (_get_zone_id fuel zone_name s) as [[zone_id|e|] s1] eqn:Hid;
    simpl in Hs;
    unfold zone, record_create, record_update, record_delete, bind;
    rewrite ?Hid; simpl snd;
    try (repeat split; apply (lists_then_nothing _ s s1 pages Hs Hp)).
  repeat match goal with |- _ /\ _ => split end.
  - rewrite _request_run.
    destruct (status_exn _); [|destruct (json _)];
      (eapply lists_then_one;
       [exact Hs | exact Hp | reflexivity | apply on_zone_request]).
  - pose proof (_handle_record_data_effect record_data false s1)
      as (Hsent & _).
    destruct (_handle_record_data record_data false s1) as [[r|e|] s2];
      simpl in Hsent;
      try (apply (lists_then_nothing _ s s2 pages); [congruence | exact Hp]).
    unfold gets. rewrite _request_run.
    destruct (status_exn _); [|destruct (json _)];
      (eapply lists_then_one;
       [rewrite <- Hsent in Hs; exact Hs | exact Hp | reflexivity
       | apply on_zone_request]).
  - pose proof (_handle_record_data_effect record_data true s1)
      as (Hsent & _).
    destruct (_handle_record_data record_data true s1) as [[r|e|] s2];
      simpl in Hsent;
      try (apply (lists_then_nothing _ s s2 pages); [congruence | exact Hp]).
    unfold gets. rewrite _request_run.
    destruct (status_exn _);
      (eapply lists_then_one;
       [rewrite <- Hsent in Hs; exact Hs | exact Hp | reflexivity
       | apply on_zone_request]).
  - rewrite _request_run.
    destruct (status_exn _);
      (eapply lists_then_one;
       [exact Hs | exact Hp | reflexivity | apply on_zone_request]).
Qed.
End Frames.

(** ** The cache load, page by page *)

Section Loading.
Context {W : Type} `{Provider W}.

Lemma cache_only_refl (s : state W) : cache_only s s.
Proof. repeat split. Qed.

Lemma cache_only_trans (s1 s2 s3 : state W) :
  cache_only s1 s2 -> cache_only s2 s3 -> cache_only s1 s3.
Proof.
  intros (A1 & B1 & C1) (A2 & B2 & C2). repeat split; congruence.
Qed.

Lemma for_each_cache_item_cache_only (zs : list pyval) :
  steps (W:=W) cache_only (for_each cache_item zs).
Proof.
  apply (steps_for_each cache_only cache_only_refl cache_only_trans).
  intros z. unfold cache_item.
  repeat (apply (steps_bind cache_only cache_only_trans);
          [apply (steps_lift cache_only cache_only_refl) | intros]).
  intros s. destruct (zones_setitem_fields a0 a s) as (A & B & C).
  repeat split; assumption.
Qed.

(** One turn of the loop: the listing request of the page goes out, and
    either the loop ends there or it goes on with the next page. *)
Lemma _cache_zones_from_turn (fuel : nat) (page : Z) (s : state W) :
  let a := respond (remote s) (listing_request page) in
  exists s2,
    sent s2 = sent s ++ [(listing_request page, fst a)]
    /\ remote s2 = snd a
    /\ heap s2 = heap s
    /\ ((exists r, _cache_zones_from (S fuel) page s = (r, s2))
        \/ _cache_zones_from (S fuel) page s
           = _cache_zones_from fuel (page + 1) s2).
Proof.
  cbv zeta. remember (_cache_zones_from (S fuel) page s) as X eqn:HX.
  cbn [_cache_zones_from] in HX. unfold bind at 1 in HX.
  rewrite _request_run in HX. fold (listing_request page) in HX.
  set (a := respond (remote s) (listing_request page)) in *.
  set (s1 := mkState (_zones s) (heap s) (snd a)
               (sent s ++ [(listing_request page, fst a)])) in *.
  assert (Hend : forall (r : outcome unit) (s2 : state W),
            X = (r, s2) -> cache_only s1 s2 ->
            exists s2, sent s2 = sent s ++ [(listing_request page, fst a)]
              /\ remote s2 = snd a /\ heap s2 = heap s
              /\ ((exists r', X = (r', s2))
                  \/ X = _cache_zones_from fuel (page + 1) s2)).
  { intros r s2 -> (A & B & C). exists s2. repeat split; try assumption.
    left. eauto. }
  destruct (status_exn _);
    [apply (Hend _ _ HX (cache_only_refl s1))|].
  unfold bind at 1 in HX. destruct (json (fst a)) as [e|body];
    cbv [lift raise ret] in HX;
    [apply (Hend _ _ HX (cache_only_refl s1))|].
  unfold bind at 1 in HX. destruct (getitem body "Items") as [e|items];
    cbv [lift raise ret] in HX;
    [apply (Hend _ _ HX (cache_only_refl s1))|].
  unfold bind at 1 in HX. destruct (iterate items) as [e|zs];
    cbv [lift raise ret] in HX;
    [apply (Hend _ _ HX (cache_only_refl s1))|].
  unfold bind at 1 in HX.
  pose proof (for_each_cache_item_cache_only zs s1) as Hc.
  destruct (for_each cache_item zs s1) as [[[]|e|] s2]; simpl in Hc;
    try apply (Hend _ _ HX Hc).
  unfold bind at 1 in HX. destruct (getitem body "HasMoreItems") as [e|more];
    cbv [lift raise ret] in HX;
    [apply (Hend _ _ HX Hc)|].
  destruct (negb (eq_True more)); [apply (Hend _ _ HX Hc)|].
  destruct Hc as (A & B & C). exists s2. repeat split; try assumption.
  right. exact HX.
Qed.

Lemma consecutive_pages_cons (page : Z) (n : nat) :
  map (fun i => listing_request (page + Z.of_nat i)) (seq 0 (S n))
  = listing_request page
    :: map (fun i => listing_request (page + 1 + Z.of_nat i)) (seq 0 n).
Proof.
  cbn [seq map]. rewrite Z.add_0_r. f_equal.
  rewrite <- seq_shift, map_map. apply map_ext. intros i.
  f_equal. lia.
Qed.

Lemma _cache_zones_from_pages (fuel : nat) (page : Z) (s : state W) :
  exists d,
    sent (snd (_cache_zones_from fuel page s)) = sent s ++ d
    /\ map fst d
       = map (fun i => listing_request (page + Z.of_nat i))
           (seq 0 (List.length d))
    /\ (List.length d <= fuel)%nat
    /\ (fuel <> O -> d <> []).
Proof.
  revert page s. induction fuel as [|fuel IH]; intros page s.
  - exists []. rewrite app_nil_r. repeat split; auto.
  - destruct (_cache_zones_from_turn fuel page s)
      as (s2 & Hs2 & _ & _ & [(r & Hrun)|Hrun]); rewrite Hrun.
    + eexists [_]. split; [exact Hs2|]. cbn [List.length].
      rewrite consecutive_pages_cons. repeat split; [lia | discriminate].
    + destruct (IH (page + 1) s2) as (d & Hd & Hm & Hl & _).
      eexists (_ :: d). rewrite Hd, Hs2, <- app_assoc.
      split; [reflexivity|]. cbn [List.length map fst].
      rewrite consecutive_pages_cons, Hm.
      repeat split; [lia | discriminate].
Qed.

(** X3.  The pages of a cache load are asked for in order: whatever the
    provider answers and however the call ends, the requests list zones
    sends are the listing requests for pages 1, 2, ..., n, none skipped or
    repeated, with n at most the number of turns the loop was given; n is 0
    when the cache is not empty and at least 1 when it is. *)
Theorem zones_asks_for_consecutive_pages (fuel : nat) (s : state W) :
  exists d,
    sent (snd (zones fuel s)) = sent s ++ d
    /\ map fst d
       = map (fun i => listing_request (1 + Z.of_nat i)) (seq 0 (List.length d))
    /\ (List.length d <= fuel)%nat
    /\ (_zones s <> [] -> d = [])
    /\ (_zones s = [] -> fuel <> O -> d <> []).
Proof.
  unfold zones, bind, gets, zones_empty. cbv beta iota.
  destruct (_zones s) as [|p d0] eqn:Ez.
  - unfold _cache_zones.
    destruct (_cache_zones_from_pages fuel 1 s) as (d & Hd & Hm & Hl & Hne).
    exists d.
    destruct (_cache_zones_from fuel 1 s) as [[[]|e|] s1]; simpl in Hd |- *;
      repeat split; auto; congruence.
  - exists []. simpl. rewrite app_nil_r.
    repeat split; auto; try lia. congruence.
Qed.

(** X1.  Clear cache empties the cache and nothing else, and the next list
    zones goes to the provider again: whatever the cache held, with a turn
    of the loop to spend it sends the listing request for page 1 first. *)
Theorem clear_then_zones_lists_again (fuel : nat) (s : state W) :
  let s1 := snd (clear_zones_cache s) in
  fst (clear_zones_cache s) = Ret true
  /\ _zones s1 = []
  /\ heap s1 = heap s /\ remote s1 = remote s /\ sent s1 = sent s
  /\ exists rest,
       sent (snd (zones (S fuel) s1))
       = sent s ++ (listing_request 1,
                    fst (respond (remote s) (listing_request 1))) :: rest.
Proof.
  cbv zeta. repeat match goal with |- _ /\ _ => split end; try reflexivity.
  set (s1 := snd (clear_zones_cache s)).
  assert (Hz : sent (snd (zones (S fuel) s1))
               = sent (snd (_cache_zones_from (S fuel) 1 s1))).
  { subst s1.
    cbv [zones bind gets zones_empty clear_zones_cache snd _zones _cache_zones].
    match goal with
    | |- context [_cache_zones_from (S fuel) 1 ?s0] =>
        destruct (_cache_zones_from (S fuel) 1 s0) as [[[]|e|] s2]
    end; reflexivity. }
  rewrite Hz.
  destruct (_cache_zones_from_turn fuel 1 s1)
    as (s2 & Hs2 & _ & _ & [(r & Hrun)|Hrun]); rewrite Hrun.
  - exists []. exact Hs2.
  - destruct (_cache_zones_from_only_lists fuel (1 + 1) s2)
      as (_ & pages & Hp & _).
    exists pages. rewrite Hp, Hs2, <- app_assoc. reflexivity.
Qed.

Lemma dict_update_app {K V : Type} (eqb : K -> K -> bool)
    (d l1 l2 : list (K * V)) :
  dict_update eqb d (l1 ++ l2) = dict_update eqb (dict_update eqb d l1) l2.
Proof. unfold dict_update. apply fold_left_app. Qed.

Lemma _cache_zones_from_serves (w w' : W) (page : Z)
    (pgs : list (response * zdict)) :
  serves w page pgs w' ->
  forall (fuel : nat) (s : state W),
    remote s = w ->
    (List.length pgs <= fuel)%nat ->
    _cache_zones_from fuel page s
    = (Ret tt,
       mkState (dict_update key_eqb (_zones s) (List.concat (map snd pgs)))
         (heap s) w' (sent s ++ listed page pgs)).
Proof.
  induction 1 as [w w' page r body pairs Hr Hst Hb Hp
                 |w w1 w' page r body pairs rest Hr Hst Hb Hp Hrest IH];
    intros fuel s Hw Hlen; subst w;
    (destruct fuel as [|fuel]; [simpl in Hlen; lia|]);
    rewrite (_cache_zones_from_page fuel page s r _ body pairs _ Hr Hst Hb Hp);
    cbv zeta.
  - simpl. rewrite app_nil_r. reflexivity.
  - rewrite IH; [|reflexivity | simpl in *; lia].
    cbn [_zones heap sent map snd List.concat listed].
    rewrite dict_update_app, <- app_assoc. reflexivity.
Qed.

(** X2.  A listing of any number of pages.  On an empty cache, when the
    provider serves the listing in pages of which every one but the last
    announces more items, and the loop has a turn for each page, list zones
    sends one listing request per page, for pages 1, 2, ... in order, and
    returns the keys of the cache it leaves: the [(Domain, Id)] pairs of
    the pages assigned in order of page and item. *)
Theorem zones_loads_every_page
    (fuel : nat) (s : state W) (w' : W) (pgs : list (response * zdict)) :
  _zones s = [] ->
  serves (remote s) 1 pgs w' ->
  (List.length pgs <= fuel)%nat ->
  let cache := dict_update key_eqb [] (List.concat (map snd pgs)) in
  zones fuel s
  = (Ret (map fst cache),
     mkState cache (heap s) w' (sent s ++ listed 1 pgs)).
Proof.
  intros Hz Hs Hl cache.
  unfold zones, bind, gets, zones_empty, _cache_zones. rewrite Hz.
  cbv beta iota.
  rewrite (_cache_zones_from_serves _ _ _ _ Hs fuel s eq_refl Hl).
  rewrite Hz. reflexivity.
Qed.

Lemma _cache_zones_from_endless (Hmore : always_more (W:=W)) (fuel : nat) :
  forall (page : Z) (s : state W),
    fst (_cache_zones_from fuel page s) = OutOfFuel
    /\ List.length (sent (snd (_cache_zones_from fuel page s)))
       = (List.length (sent s) + fuel)%nat.
Proof.
  induction fuel as [|fuel IH]; intros page s.
  - simpl. split; [reflexivity | lia].
  - destruct (Hmore (remote s) page) as (r & w' & body & pairs & Hr & Hst & Hb & Hp).
    rewrite (_cache_zones_from_page fuel page s r w' body pairs true Hr Hst Hb Hp).
    cbv zeta.
    match goal with
    | |- context [_cache_zones_from fuel (page + 1) ?s1] =>
        destruct (IH (page + 1) s1) as [Ho Hn]
    end.
    split; [exact Ho|]. rewrite Hn. simpl. rewrite length_app. simpl. lia.
Qed.

(** X4.  The load has no bound of its own on the number of pages.  Against
    a provider that answers every listing request with a page announcing
    more items, list zones on an empty cache does not end: however many
    turns the loop is given, it spends them all, one request each. *)
Theorem zones_never_ends_on_endless_listing (fuel : nat) (s : state W) :
  always_more (W:=W) ->
  _zones s = [] ->
  fst (zones fuel s) = OutOfFuel
  /\ List.length (sent (snd (zones fuel s)))
     = (List.length (sent s) + fuel)%nat.
Proof.
  intros Hmore Hz.
  destruct (_cache_zones_from_endless Hmore fuel 1 s) as [Ho Hn].
  unfold zones, bind, gets, zones_empty, _cache_zones. rewrite Hz.
  cbv beta iota.
  destruct (_cache_zones_from fuel 1 s) as [[[]|e|] s1]; simpl in *;
    try discriminate. auto.
Qed.

Lemma dict_set_not_nil {K V : Type} (eqb : K -> K -> bool)
    (d : list (K * V)) (k : K) (v : V) :
  dict_set eqb d k v <> [].
Proof.
  destruct d as [|[k0 v0] d]; simpl; [discriminate|].
  destruct (eqb k0 k); discriminate.
Qed.

Lemma dict_update_not_nil {K V : Type} (eqb : K -> K -> bool)
    (l d : list (K * V)) :
  d <> [] \/ l <> [] -> dict_update eqb d l <> [].
Proof.
  revert d. induction l as [|[k v] l IH]; intros d Hne.
  - destruct Hne as [Hd|Hl]; [exact Hd | congruence].
  - change (dict_update eqb d ((k, v) :: l))
      with (dict_update eqb (dict_set eqb d k v) l).
    apply IH. left. apply dict_set_not_nil.
Qed.

(** X5.  A load that fails half way leaves half a cache, and the client
    keeps it.  When page 1 is served with at least one item and announces
    more, and the response to page 2 has a status that raises, list zones
    raises that exception with the items of page 1 in the cache; the next
    list zones returns just those names and sends nothing. *)
Theorem failed_page_leaves_partial_cache
    (fuel fuel' : nat) (s : state W) (r1 r2 : response) (w1 w2 : W)
    (body1 : pyval) (pairs1 : zdict) (e : exn) :
  _zones s = [] ->
  respond (remote s) (listing_request 1) = (r1, w1) ->
  200 <= status_code r1 < 300 ->
  decoded r1 = Some body1 ->
  page_of body1 pairs1 true ->
  pairs1 <> [] ->
  respond w1 (listing_request 2) = (r2, w2) ->
  status_exn (status_code r2) = Some e ->
  let s1 := snd (zones (S (S fuel)) s) in
  let cache := dict_update key_eqb [] pairs1 in
  fst (zones (S (S fuel)) s) = Raise e
  /\ _zones s1 = cache
  /\ map fst (sent s1) = map fst (sent s) ++ [listing_request 1; listing_request 2]
  /\ zones fuel' s1 = (Ret (map fst cache), s1).
Proof.
  intros Hz Hr1 Hst1 Hb1 Hp1 Hne Hr2 He s1 cache.
  assert (Hrun : zones (S (S fuel)) s
                 = (Raise e,
                    mkState cache (heap s) w2
                      (sent s ++ [(listing_request 1, r1);
                                  (listing_request 2, r2)]))).
  { unfold zones, bind, gets, zones_empty, _cache_zones. rewrite Hz.
    cbv beta iota.
    rewrite (_cache_zones_from_page (S fuel) 1 s r1 w1 body1 pairs1 true
               Hr1 Hst1 Hb1 Hp1).
    cbv zeta. change (1 + 1) with 2.
    cbn [_cache_zones_from]. unfold bind at 1. rewrite _request_run.
    fold (listing_request 2). cbn [remote]. rewrite Hr2. cbn [fst snd].
    rewrite He. cbn [_zones heap sent]. rewrite Hz, <- app_assoc.
    reflexivity. }
  subst s1. rewrite Hrun. cbn [fst snd _zones sent].
  repeat match goal with |- _ /\ _ => split end; try reflexivity.
  - rewrite map_app. reflexivity.
  - rewrite zones_ensure_cached. unfold bind. rewrite ensure_cached_hit.
    + reflexivity.
    + cbn [_zones]. apply dict_update_not_nil. right. exact Hne.
Qed.
End Loading.

(** ** The table of record types *)

(** X14.  The encoding of record types loses nothing: two symbolic types
    never share an integer code, every code lies between 0 and 12, and the
    codes of the provider's own types (5, 6, 7 and 11) are never produced. *)
Theorem RECORD_TYPES_is_injective (t1 t2 : string) (code : Z) :
  dict_get String.eqb RECORD_TYPES t1 = Some code ->
  dict_get String.eqb RECORD_TYPES t2 = Some code ->
  t1 = t2
  /\ 0 <= code <= 12
  /\ code <> 5 /\ code <> 6 /\ code <> 7 /\ code <> 11.
Proof.
  unfold RECORD_TYPES. cbn [dict_get].
  repeat match goal with
         | |- context [String.eqb ?a t1] =>
             destruct (String.eqb_spec a t1); [subst t1|]
         end;
    try discriminate;
    (intros [= <-];
     repeat match goal with
            | |- context [String.eqb ?a t2] =>
                destruct (String.eqb_spec a t2); [subst t2|]
            end;
     try discriminate; intros _; repeat split; lia || discriminate).
Qed.

(** ** Examples of the further properties *)

Lemma zones_loads_every_page_witness :
  zones 3 (fresh_client [] [ok page1; ok middle_page; ok page3])
  = (Ret [PStr "a.example"; PStr "b.example"; PStr "d.example"],
     mkState [(PStr "a.example", PInt 1); (PStr "b.example", PInt 2);
              (PStr "d.example", PInt 4)]
       (heap (fresh_client [] [ok page1; ok middle_page; ok page3])) []
       [(listing_request 1, ok page1); (listing_request 2, ok middle_page);
        (listing_request 3, ok page3)]).
Proof.
  apply (zones_loads_every_page 3
           (fresh_client [] [ok page1; ok middle_page; ok page3]) []
           [(ok page1, [(PStr "a.example", PInt 1)]);
            (ok middle_page, [(PStr "b.example", PInt 2)]);
            (ok page3, [(PStr "d.example", PInt 4)])]).
  - reflexivity.
  - apply (serves_more _ [ok middle_page; ok page3] _ _ _ page1);
      [reflexivity | simpl; lia | reflexivity
      | eexists; repeat split; repeat constructor |].
    apply (serves_more _ [ok page3] _ _ _ middle_page);
      [reflexivity | simpl; lia | reflexivity
      | eexists; repeat split; repeat constructor |].
    apply (serves_last _ _ _ _ page3);
      [reflexivity | simpl; lia | reflexivity
      | eexists; repeat split; repeat constructor].
  - simpl. lia.
Defined.

Lemma endless_always_more : always_more (W:=busy).
Proof.
  intros w page. exists (ok endless_page), w, endless_page, [].
  split; [reflexivity|]. split; [simpl; lia|]. split; [reflexivity|].
  exists []. repeat split. constructor.
Qed.

Lemma zones_never_ends_witness :
  fst (zones 5 (new_client (fun _ => []) Busy)) = OutOfFuel
  /\ List.length (sent (snd (zones 5 (new_client (fun _ => []) Busy)))) = 5%nat.
Proof.
  apply (zones_never_ends_on_endless_listing 5 (new_client (fun _ => []) Busy)
           endless_always_more eq_refl).
Defined.

Lemma failed_page_leaves_partial_cache_witness :
  let s := fresh_client [] [ok page1; mkResponse 401 None] in
  let s1 := snd (zones 2 s) in
  fst (zones 2 s) = Raise BunnyClientUnauthorized
  /\ _zones s1 = [(PStr "a.example", PInt 1)]
  /\ map fst (sent s1) = [listing_request 1; listing_request 2]
  /\ zones 2 s1 = (Ret [PStr "a.example"], s1).
Proof.
  cbv zeta.
  apply (failed_page_leaves_partial_cache 0 2
           (fresh_client [] [ok page1; mkResponse 401 None])
           (ok page1) (mkResponse 401 None) [mkResponse 401 None] []
           page1 [(PStr "a.example", PInt 1)] BunnyClientUnauthorized);
    try reflexivity; try (simpl; lia); try discriminate.
  eexists; repeat split; repeat constructor.
Defined.

Lemma record_create_is_not_repeatable_witness :
  let s := cached_client a_record [mkResponse 201 (Some (PDict []));
                                   mkResponse 201 (Some (PDict []))] in
  let s1 := snd (record_create 1 "example.com" O s) in
  exists msg,
    record_create 1 "example.com" O s1 = (Raise (BunnyClientException msg), s1).
Proof.
  cbv zeta.
  apply (record_create_is_not_repeatable 1 1 "example.com" O
           (cached_client a_record [mkResponse 201 (Some (PDict []));
                                    mkResponse 201 (Some (PDict []))])
           (PInt 42) "A" 0); reflexivity.
Defined.

Lemma cache_keys_distinct_witness :
  let s := new_client (fun _ => []) old_account in
  distinct_keys (_zones s)
  /\ distinct_keys (_zones (snd (zones 2 s)))
  /\ NoDup [PStr "old.example"].
Proof.
  cbv zeta. split; [exact I|].
  destruct (operations_keep_cache_keys_distinct 2 "old.example" (PInt 1) O
              (new_client (fun _ => []) old_account) I)
    as (Hz & _ & _ & _ & _ & _ & Hn).
  split; [exact Hz|].
  apply (Hn [PStr "old.example"]
           (snd (zones 2 (new_client (fun _ => []) old_account)))).
  reflexivity.
Defined.

Lemma falsy_cached_id_witness :
  zone 1 "example.com" (zero_id_client [ok (created_zone 0)])
  = (Raise BunnyClientNotFound, zero_id_client [ok (created_zone 0)]).
Proof.
  apply (falsy_cached_id_is_not_found 1 "example.com" (PInt 5) O
           (zero_id_client [ok (created_zone 0)]) (PInt 0));
    reflexivity.
Defined.

Lemma RECORD_TYPES_is_injective_witness :
  "MX" = "MX" /\ 0 <= 4 <= 12 /\ 4 <> 5 /\ 4 <> 6 /\ 4 <> 7 /\ 4 <> 11.
Proof.
  apply (RECORD_TYPES_is_injective "MX" "MX" 4); reflexivity.
Defined.

Lemma body_is_decoded_witness :
  fst (zone 1 "example.com" (cached_client [] [mkResponse 204 None]))
  = Raise JSONDecodeError
  /\ fst (record_delete 1 "example.com" (PInt 5)
            (cached_client [] [mkResponse 204 None]))
     = Ret (mkResponse 204 None).
Proof.
  destruct (body_is_decoded_by_zone_not_by_record_delete 1 "example.com"
              (PInt 5) (cached_client [] [mkResponse 204 None]) (PInt 42)
              eq_refl eq_refl) as [Hzone Hdelete].
  split.
  - apply Hzone. simpl. lia.
  - apply Hdelete. simpl. lia.
Defined.
